(** * TestRail (REST/JSON) and TestLink (XML-RPC) client wrappers

    A shallow embedding of the two client classes of
    [testrail_api_example.py] and [testlink_api_example.py]
    ([TestRailClient], [TestLinkAPIClient], [TestLinkAPIWrapper]) and the
    properties of their request construction, transport usage and error
    behaviour.

    Python values are an inductive type with dictionaries as finite maps;
    a method is a computation in a small state-and-exception monad whose
    state holds the instance ([self]) and the log of transport calls; the
    HTTP / XML-RPC transport is a section variable that may answer
    depending on everything sent so far. *)

From Stdlib Require Import ZArith String Ascii DecimalString DecimalPos DecimalZ.
From stdpp Require Import gmap strings list fin_maps.

Open Scope string_scope.
Open Scope list_scope.
Open Scope Z_scope.

#[local] Set Warnings "-register-all".

(** ** Python values *)

(** The values that travel through the clients: JSON bodies, XML-RPC
    structures and decoded responses. A [dict] with string keys is a finite
    map, as Python compares dictionaries regardless of insertion order. *)
Inductive pyval : Type :=
| VNone
| VBool (b : bool)
| VInt (z : Z)
| VStr (s : string)
| VList (l : list pyval)
| VDict (d : gmap string pyval).

(** ** Exceptions *)

(** [Fault] is [xmlrpc.client.Fault] with its two attributes, [PyException]
    is the builtin [Exception(msg)], [KeyError] is raised by [d[k]] on a
    missing key, and [OtherError cls args] is an instance of any other class
    (for instance [requests.HTTPError], [ConnectionError],
    [xmlrpc.client.ProtocolError]) with its constructor arguments.

    An exception stands for its class and its own data. The [__context__]
    link that the interpreter sets on an exception raised inside an
    [except] block is not represented, and no statement below says
    anything about it. *)
Inductive pyexc : Type :=
| Fault (faultCode : Z) (faultString : string)
| PyException (msg : string)
| KeyError (key : string)
| OtherError (cls : string) (args : list pyval).

(** The class an exception object is an instance of. *)
Definition exc_class (e : pyexc) : string :=
  match e with
  | Fault _ _ => "xmlrpc.client.Fault"
  | PyException _ => "Exception"
  | KeyError _ => "KeyError"
  | OtherError cls _ => cls
  end.

(** The [args] tuple of an exception object. [Fault.__init__] passes no
    argument on to [Exception.__init__]. *)
Definition exc_args (e : pyexc) : list pyval :=
  match e with
  | Fault _ _ => []
  | PyException msg => [VStr msg]
  | KeyError key => [VStr key]
  | OtherError _ args => args
  end.

(** ** String operations of the Python runtime *)

(** [str(n)] for an [int]: decimal digits, a leading minus sign when
    negative. *)
Definition str_int (z : Z) : string := NilZero.string_of_int (Z.to_int z).

(** Strings are UTF-8 encoded text.

    [c.lower()] on one character of the ASCII range: [A-Z] become [a-z],
    the other bytes are left alone. *)
Definition lower_ascii (a : ascii) : ascii :=
  let n := N_of_ascii a in
  if ((65 <=? n) && (n <=? 90))%N then ascii_of_N (n + 32) else a.

(** The three bytes [E2 84 AA] of KELVIN SIGN (U+212A), the only character
    outside the ASCII range whose lowercase is an ASCII character, [k]. *)
Definition is_kelvin_sign (a b c : ascii) : bool :=
  Ascii.eqb a "226" && Ascii.eqb b "132" && Ascii.eqb c "170".

(** [s.lower()]. It is [str.lower()] on every text made of ASCII
    characters and KELVIN SIGN, that is on every text whose lowercase is
    ASCII. The lowercase of any other text has a character outside the
    ASCII range, in Python and here alike, where such characters are left
    as they are: comparing the result with an ASCII string, as the status
    lookup does, gives what Python gives on every text. *)
Fixpoint lower (s : string) : string :=
  match s with
  | EmptyString => EmptyString
  | String a s' =>
      match s' with
      | String b (String c rest) =>
          if is_kelvin_sign a b c then String "k" (lower rest)
          else String (lower_ascii a) (lower s')
      | _ => String (lower_ascii a) (lower s')
      end
  end.

(** [c in chars] *)
Fixpoint in_chars (a : ascii) (chars : string) : bool :=
  match chars with
  | EmptyString => false
  | String c chars' => Ascii.eqb a c || in_chars a chars'
  end.

(** [s.rstrip(chars)]: drops the longest suffix of [s] made of characters
    of [chars]. *)
Fixpoint rstrip (chars : string) (s : string) : string :=
  match s with
  | EmptyString => EmptyString
  | String a s' =>
      match rstrip chars s' with
      | EmptyString => if in_chars a chars then EmptyString else String a EmptyString
      | r => String a r
      end
  end.

(** [d[k]] on a dictionary *)
Definition subscript (d : gmap string pyval) (k : string) : pyexc + pyval :=
  match d !! k with
  | Some v => inr v
  | None => inl (KeyError k)
  end.

(** [d.get(k, dflt)] *)
Definition dict_get {V : Type} (d : gmap string V) (k : string) (dflt : V) : V :=
  default dflt (d !! k).

(** ** The execution monad *)

(** What a call either returns or raises. *)
Inductive result (A : Type) : Type :=
| Ret (a : A)
| Raise (e : pyexc).
Arguments Ret {A} a.
Arguments Raise {A} e.

Section Machine.
Context {Self Call : Type}.

(** The instance the method runs on and the transport calls issued so
    far, oldest first. *)
Record world : Type := World { self : Self; sent : list Call }.

Definition M (A : Type) : Type := world -> result A * world.

Definition ret {A} (a : A) : M A := fun w => (Ret a, w).

Definition raise {A} (e : pyexc) : M A := fun w => (Raise e, w).

Definition bind {A B} (m : M A) (k : A -> M B) : M B :=
  fun w =>
    match m w with
    | (Ret a, w') => k a w'
    | (Raise e, w') => (Raise e, w')
    end.

(** [try: m  except <class> as e: handler e]; [handler] answers [None]
    for an exception its [except] clause does not match, which then
    propagates. *)
Definition try_except {A} (m : M A) (handler : pyexc -> option (M A)) : M A :=
  fun w =>
    match m w with
    | (Ret a, w') => (Ret a, w')
    | (Raise e, w') =>
        match handler e with
        | Some h => h w'
        | None => (Raise e, w')
        end
    end.

(** Reading an attribute of [self]. *)
Definition attr {A} (field : Self -> A) : M A := fun w => (Ret (field (self w)), w).

(** Assigning to [self]; no method below does. *)
Definition set_self (s : Self) : M unit :=
  fun w => (Ret tt, {| self := s; sent := sent w |}).

(** Lifting a pure fallible step such as [d[k]]. *)
Definition lift {A} (r : pyexc + A) : M A :=
  match r with
  | inl e => raise e
  | inr a => ret a
  end.

(** One call through the transport: it is logged, and the transport's
    answer, which may depend on the calls before it, is returned or
    raised. *)
Definition perform {A} (transport : list Call -> Call -> result A) (c : Call) : M A :=
  fun w =>
    (transport (sent w) c, {| self := self w; sent := sent w ++ [c] |}).

(** A computation that leaves the instance as it found it, whatever it
    returns or raises. *)
Definition keeps_self {A} (m : M A) : Prop :=
  forall w, self (snd (m w)) = self w.
End Machine.

Arguments world : clear implicits.
Arguments M : clear implicits.
Arguments keeps_self {Self Call A} m.

Notation "x <- m ;; k" := (bind m (fun x => k))
  (at level 100, m at next level, right associativity, only parsing).

(** ** [TestRailClient]: REST/JSON over HTTP Basic Authentication *)

Module TestRail.

(** What [requests.post] / [requests.get] is called with. *)
Record Request : Type := {
  req_method : string;
  req_url : string;
  req_auth : string * string;
  req_headers : gmap string string;
  req_json : option pyval
}.

(** The [requests.Response] object as far as the client uses it: what
    [raise_for_status()] does ([None]: returns normally) and what
    [json()] returns or raises. *)
Record Response : Type := {
  raise_for_status : option pyexc;
  json : result pyval
}.

(** The instance attributes set by [__init__]. *)
Record TestRailClient : Type := {
  base_url : string;
  auth : string * string;
  headers : gmap string string
}.

Definition __init__ (base_url email api_key : string) : TestRailClient :=
  {| base_url := rstrip "/" base_url;
     auth := (email, api_key);
     headers := {[ "Content-Type" := "application/json" ]} |}.

(** The requests the methods build: [requests.post(url, auth=self.auth,
    headers=self.headers, json=payload)] and [requests.get(url,
    auth=self.auth, headers=self.headers)]. *)
Definition post_request (c : TestRailClient) (url : string) (payload : pyval) : Request :=
  {| req_method := "POST"; req_url := url; req_auth := auth c;
     req_headers := headers c; req_json := Some payload |}.

Definition get_request (c : TestRailClient) (url : string) : Request :=
  {| req_method := "GET"; req_url := url; req_auth := auth c;
     req_headers := headers c; req_json := None |}.

Section Client.
(** The HTTP library together with the server behind it. *)
Variable requests : list Request -> Request -> result Response.

Abbreviation MClient := (M TestRailClient Request).

Definition requests_post (url : string) (auth : string * string)
    (headers : gmap string string) (payload : pyval) : MClient Response :=
  perform requests
    {| req_method := "POST"; req_url := url; req_auth := auth;
       req_headers := headers; req_json := Some payload |}.

Definition requests_get (url : string) (auth : string * string)
    (headers : gmap string string) : MClient Response :=
  perform requests
    {| req_method := "GET"; req_url := url; req_auth := auth;
       req_headers := headers; req_json := None |}.

(** [response.raise_for_status()] *)
Definition call_raise_for_status (response : Response) : MClient unit :=
  match raise_for_status response with
  | Some e => raise e
  | None => ret tt
  end.

(** [response.json()] *)
Definition call_json (response : Response) : MClient pyval :=
  match json response with
  | Ret v => ret v
  | Raise e => raise e
  end.

Definition add_result (test_id status_id : Z) (comment elapsed : string) : MClient pyval :=
  base <- attr base_url ;;
  let endpoint := base +:+ "/index.php?/api/v2/add_result/" +:+ str_int test_id in
  let payload :=
    VDict (<["status_id" := VInt status_id]>
           (<["comment" := VStr comment]>
           (<["elapsed" := VStr elapsed]> ∅))) in
  a <- attr auth ;;
  h <- attr headers ;;
  response <- requests_post endpoint a h payload ;;
  _ <- call_raise_for_status response ;;
  call_json response.

Definition add_results_batch (run_id : Z) (results : list (gmap string pyval)) : MClient pyval :=
  base <- attr base_url ;;
  let endpoint := base +:+ "/index.php?/api/v2/add_results/" +:+ str_int run_id in
  let payload := VDict (<["results" := VList (VDict <$> results)]> ∅) in
  a <- attr auth ;;
  h <- attr headers ;;
  response <- requests_post endpoint a h payload ;;
  _ <- call_raise_for_status response ;;
  call_json response.

Definition get_test (test_id : Z) : MClient pyval :=
  base <- attr base_url ;;
  let endpoint := base +:+ "/index.php?/api/v2/get_test/" +:+ str_int test_id in
  a <- attr auth ;;
  h <- attr headers ;;
  response <- requests_get endpoint a h ;;
  _ <- call_raise_for_status response ;;
  call_json response.

Definition get_run (run_id : Z) : MClient pyval :=
  base <- attr base_url ;;
  let endpoint := base +:+ "/index.php?/api/v2/get_run/" +:+ str_int run_id in
  a <- attr auth ;;
  h <- attr headers ;;
  response <- requests_get endpoint a h ;;
  _ <- call_raise_for_status response ;;
  call_json response.
End Client.

(** The table in the docstring of [add_result]:
    [status_id: 1=Passed, 2=Blocked, 3=Untested, 4=Retest, 5=Failed].
    The client has no function for it: callers pass the integer. *)
Inductive Status : Type := Passed | Failed | Blocked | Untested | Retest.

Definition status_id_of (s : Status) : Z :=
  match s with
  | Passed => 1
  | Blocked => 2
  | Untested => 3
  | Retest => 4
  | Failed => 5
  end.

End TestRail.

(** ** [TestLinkAPIClient] and [TestLinkAPIWrapper]: XML-RPC *)

Module TestLink.

(** [xmlrpc.client.ServerProxy(url)], the transport handle. *)
Record ServerProxy : Type := { uri : string }.

(** One remote call [proxy.<method>(params...)]. *)
Record RpcCall : Type := {
  rpc_uri : string;
  rpc_method : string;
  rpc_params : list pyval
}.

(** The instance attributes set by [TestLinkAPIClient.__init__]. *)
Record TestLinkAPIClient : Type := {
  server : ServerProxy;
  dev_key : string
}.

Definition __init__ (url dev_key : string) : TestLinkAPIClient :=
  {| server := {| uri := url |}; dev_key := dev_key |}.

(** The instance attributes set by [TestLinkAPIWrapper.__init__]. *)
Record TestLinkAPIWrapper : Type := {
  client : TestLinkAPIClient;
  status_map : gmap string string
}.

Definition wrapper__init__ (url dev_key : string) : TestLinkAPIWrapper :=
  {| client := __init__ url dev_key;
     status_map := <["passed" := "p"]> (<["failed" := "f"]> (<["blocked" := "b"]> ∅)) |}.

(** [f"XML-RPC Fault: {fault.faultCode} - {fault.faultString}"] *)
Definition fault_message (faultCode : Z) (faultString : string) : string :=
  "XML-RPC Fault: " +:+ str_int faultCode +:+ " - " +:+ faultString.

(** [status_map.get(status.lower(), 'p')] *)
Definition status_code (status_map : gmap string string) (status : string) : string :=
  dict_get status_map (lower status) "p".

(** The parameter structure of [report_result]. *)
Definition report_data (dev_key : string)
    (testcase_id testplan_id build_id status notes : pyval) : pyval :=
  VDict {[ "devKey" := VStr dev_key; "testcaseid" := testcase_id;
           "testplanid" := testplan_id; "status" := status;
           "buildid" := build_id; "notes" := notes;
           "overwrite" := VBool true ]}.

(** The remote call a method issues through [self.server]. *)
Definition remote_call (c : TestLinkAPIClient) (name : string) (data : pyval) : RpcCall :=
  {| rpc_uri := uri (server c); rpc_method := name; rpc_params := [data] |}.

(** What leaves a [try ... except xmlrpc.client.Fault] block of the
    client when the transport raises [e]. *)
Definition surfaced (e : pyexc) : pyexc :=
  match e with
  | Fault faultCode faultString => PyException (fault_message faultCode faultString)
  | _ => e
  end.

(** A record of [report_multiple_results] in the documented format
    [{"testcase_id": ..., "status": ..., "notes": ...}]; [notes] is
    optional. *)
Definition well_formed (r : gmap string pyval) : Prop :=
  is_Some (r !! "testcase_id") /\ is_Some (r !! "status").

(** The remote call [report_multiple_results] issues for one record. *)
Definition result_call (c : TestLinkAPIClient) (testplan_id build_id : pyval)
    (r : gmap string pyval) : RpcCall :=
  remote_call c "tl.reportTCResult"
    (report_data (dev_key c) (dict_get r "testcase_id" VNone) testplan_id build_id
       (dict_get r "status" VNone) (dict_get r "notes" (VStr ""))).

(** The human-readable status names, as the keys of [status_map] spell
    them. *)
Definition status_name (s : TestRail.Status) : string :=
  match s with
  | TestRail.Passed => "passed"
  | TestRail.Failed => "failed"
  | TestRail.Blocked => "blocked"
  | TestRail.Untested => "untested"
  | TestRail.Retest => "retest"
  end.

Section Client.
(** The XML-RPC library together with the server behind it. *)
Variable xmlrpc : list RpcCall -> RpcCall -> result pyval.

Abbreviation MClient := (M TestLinkAPIClient RpcCall).
Abbreviation MWrapper := (M TestLinkAPIWrapper RpcCall).

(** [self.server.tl.<name>(data)] *)
Definition server_call (name : string) (data : pyval) : MClient pyval :=
  proxy <- attr server ;;
  perform xmlrpc {| rpc_uri := uri proxy; rpc_method := name; rpc_params := [data] |}.

(** [except xmlrpc.client.Fault as fault: raise Exception(...)] *)
Definition except_Fault {A} (e : pyexc) : option (MClient A) :=
  match e with
  | Fault faultCode faultString =>
      Some (raise (PyException (fault_message faultCode faultString)))
  | _ => None
  end.

Definition report_result (testcase_id testplan_id build_id status notes : pyval) : MClient pyval :=
  key <- attr dev_key ;;
  let data :=
    VDict (<["devKey" := VStr key]>
           (<["testcaseid" := testcase_id]>
           (<["testplanid" := testplan_id]>
           (<["status" := status]>
           (<["buildid" := build_id]>
           (<["notes" := notes]>
           (<["overwrite" := VBool true]> ∅))))))) in
  try_except
    (response <- server_call "tl.reportTCResult" data ;;
     ret response)
    except_Fault.

(** The [for result in results] loop with its accumulator
    [responses]. *)
Fixpoint report_loop (testplan_id build_id : pyval)
    (results : list (gmap string pyval)) (responses : list pyval) : MClient (list pyval) :=
  match results with
  | [] => ret responses
  | result :: rest =>
      testcase_id <- lift (subscript result "testcase_id") ;;
      status <- lift (subscript result "status") ;;
      let notes := dict_get result "notes" (VStr "") in
      response <- report_result testcase_id testplan_id build_id status notes ;;
      report_loop testplan_id build_id rest (responses ++ [response])
  end.

Definition report_multiple_results (testplan_id build_id : pyval)
    (results : list (gmap string pyval)) : MClient (list pyval) :=
  report_loop testplan_id build_id results [].

Definition get_test_case (testcase_id : pyval) : MClient pyval :=
  key <- attr dev_key ;;
  let data :=
    VDict (<["devKey" := VStr key]> (<["testcaseid" := testcase_id]> ∅)) in
  try_except
    (response <- server_call "tl.getTestCase" data ;;
     ret response)
    except_Fault.

Definition get_test_plan (testplan_id : pyval) : MClient pyval :=
  key <- attr dev_key ;;
  let data :=
    VDict (<["devKey" := VStr key]> (<["testplanid" := testplan_id]> ∅)) in
  try_except
    (response <- server_call "tl.getTestPlanByID" data ;;
     ret response)
    except_Fault.

(** Running a method of [self.client] from a method of the wrapper,
    which owns that object. *)
Definition on_client {A} (m : MClient A) : MWrapper A :=
  fun w =>
    let '(r, w') := m {| self := client (self w); sent := sent w |} in
    (r, {| self := {| client := self w'; status_map := status_map (self w) |};
           sent := sent w' |}).

Definition report_result_friendly (testcase_id testplan_id build_id : pyval)
    (status : string) (notes : pyval) : MWrapper pyval :=
  map <- attr status_map ;;
  let status_code := status_code map status in
  on_client (report_result testcase_id testplan_id build_id (VStr status_code) notes).
End Client.

End TestLink.

(** ** Concrete transports and inputs *)

(** A string of [n] slashes. *)
Fixpoint slashes (n : nat) : string :=
  match n with
  | O => EmptyString
  | S n' => String "/" (slashes n')
  end.

(** An HTTP server that accepts everything. *)
Definition accepting_server : list TestRail.Request -> TestRail.Request -> result TestRail.Response :=
  fun _ _ =>
    Ret {| TestRail.raise_for_status := None;
           TestRail.json := Ret (VDict {[ "id" := VInt 1 ]}) |}.

(** An HTTP server that answers with an error status. *)
Definition rejecting_server : list TestRail.Request -> TestRail.Request -> result TestRail.Response :=
  fun _ _ =>
    Ret {| TestRail.raise_for_status :=
             Some (OtherError "requests.HTTPError" [VStr "500 Server Error"]);
           TestRail.json := Ret VNone |}.

(** An XML-RPC server that answers every call with its sequence number. *)
Definition counting_server : list TestLink.RpcCall -> TestLink.RpcCall -> result pyval :=
  fun history _ => Ret (VInt (Z.of_nat (length history))).

(** An XML-RPC server that answers every call with a fault. *)
Definition faulting_server : list TestLink.RpcCall -> TestLink.RpcCall -> result pyval :=
  fun _ _ => Raise (Fault 7 "boom").

(** An XML-RPC server whose third call faults. *)
Definition third_call_faults : list TestLink.RpcCall -> TestLink.RpcCall -> result pyval :=
  fun history _ =>
    if Nat.eqb (length history) 2 then Raise (Fault 7 "boom")
    else Ret (VInt (Z.of_nat (length history))).

(** The clients of the example functions of the two scripts. *)
Definition example_rail : TestRail.TestRailClient :=
  TestRail.__init__ "https://example.testrail.io" "tester@example.com" "your_api_key_here".

Definition example_link : TestLink.TestLinkAPIClient :=
  TestLink.__init__ "http://example.com/lib/api/xmlrpc/v1/xmlrpc.php" "K".

Definition example_wrapper : TestLink.TestLinkAPIWrapper :=
  TestLink.wrapper__init__ "http://example.com/lib/api/xmlrpc/v1/xmlrpc.php" "K".

(** [test_results] of [report_automated_test_results] in
    [testlink_api_example.py]. *)
Definition test_results : list (gmap string pyval) :=
  [ {[ "testcase_id" := VInt 101; "status" := VStr "p"; "notes" := VStr "Login test passed" ]};
    {[ "testcase_id" := VInt 102; "status" := VStr "p"; "notes" := VStr "Registration test passed" ]};
    {[ "testcase_id" := VInt 103; "status" := VStr "f"; "notes" := VStr "Payment test failed: timeout" ]};
    {[ "testcase_id" := VInt 104; "status" := VStr "p"; "notes" := VStr "Logout test passed" ]} ].

Import TestRail TestLink.


(** ["BLOCKED"] written with KELVIN SIGN (U+212A) for its fifth letter. *)
Definition blocked_with_kelvin_sign : string :=
  "BLOC" +:+ String "226" (String "132" (String "170" "ED")).

(** ** Records of [report_multiple_results] *)

(** The key whose subscript fails first on a record, if any:
    [result["testcase_id"]] is evaluated before [result["status"]]. *)
Definition missing_key (r : gmap string pyval) : option string :=
  match r !! "testcase_id" with
  | None => Some "testcase_id"
  | Some _ =>
      match r !! "status" with
      | None => Some "status"
      | Some _ => None
      end
  end.

(** Two records the loop cannot tell apart: the same [testcase_id] and
    [status] entries, and the same notes once the default of
    [result.get("notes", "")] is applied. *)
Definition same_report_fields (r1 r2 : gmap string pyval) : Prop :=
  r1 !! "testcase_id" = r2 !! "testcase_id" /\
  r1 !! "status" = r2 !! "status" /\
  dict_get r1 "notes" (VStr "") = dict_get r2 "notes" (VStr "").

(** An XML-RPC endpoint nobody listens on. *)
Definition unreachable_server : list RpcCall -> RpcCall -> result pyval :=
  fun _ _ => Raise (OtherError "ConnectionRefusedError" [VInt 111; VStr "Connection refused"]).

(** An HTTP server whose answers have a success status and a body that is
    not JSON. *)
Definition garbling_server : list Request -> Request -> result Response :=
  fun _ _ =>
    Ret {| raise_for_status := None;
           json := Raise (OtherError "requests.JSONDecodeError" [VStr "Expecting value"]) |}.

(** * Properties *)

(** ** The model on the inputs of the example scripts *)

Example str_int_examples :
  str_int 104 = "104" /\ str_int 0 = "0" /\ str_int (-5) = "-5".
Proof. repeat split. Qed.

Example rstrip_examples :
  rstrip "/" "https://example.testrail.io//" = "https://example.testrail.io" /\
  rstrip "/" "a/b/" = "a/b" /\
  rstrip "/" "///" = "" /\
  rstrip "/" "a/b" = "a/b".
Proof. repeat split. Qed.

Example lower_examples :
  lower "PaSSed" = "passed" /\ lower "failed-1 [Z]" = "failed-1 [z]".
Proof. repeat split. Qed.

(** KELVIN SIGN lowers to [k], so this spelling is sent as ['b']; the
    letter E with acute accent (bytes [C3 89]) keeps the lowercase away
    from every key, so that spelling is sent as ['p']. *)
Example lookup_outside_ascii :
  lower blocked_with_kelvin_sign = "blocked" /\
  status_code (status_map example_wrapper) blocked_with_kelvin_sign = "b" /\
  status_code (status_map example_wrapper)
    ("FAIL" +:+ String "195" (String "137" "D")) = "p".
Proof. repeat split. Qed.

(** The four records of [report_automated_test_results] cost four remote
    calls, with statuses [p, p, f, p] in that order. *)
Example four_results_four_calls :
  let run :=
    report_multiple_results counting_server (VInt 10) (VInt 5) test_results
      {| self := example_link; sent := [] |} in
  fst run = Ret [VInt 0; VInt 1; VInt 2; VInt 3] /\
  (fun c => match rpc_params c with
            | [VDict d] => d !! "status"
            | _ => None
            end) <$> sent (snd run)
  = [Some (VStr "p"); Some (VStr "p"); Some (VStr "f"); Some (VStr "p")].
Proof. split; reflexivity. Qed.

(** A record without [testcase_id] raises [KeyError] before its call. *)
Example record_without_testcase_id :
  report_multiple_results counting_server (VInt 10) (VInt 5)
    [ {[ "testcase_id" := VInt 101; "status" := VStr "p" ]};
      {[ "status" := VStr "f" ]} ]
    {| self := example_link; sent := [] |}
  = (Raise (KeyError "testcase_id"),
     {| self := example_link;
        sent := [result_call example_link (VInt 10) (VInt 5)
                   {[ "testcase_id" := VInt 101; "status" := VStr "p" ]}] |}).
Proof. reflexivity. Qed.

(** ** The instance is never assigned to *)

Section KeepsSelf.
Context {Self Call : Type}.

Lemma keeps_self_ret {A} (a : A) : keeps_self (@ret Self Call A a).
Proof. intros w. reflexivity. Qed.

Lemma keeps_self_raise {A} (e : pyexc) : keeps_self (@raise Self Call A e).
Proof. intros w. reflexivity. Qed.

Lemma keeps_self_attr {A} (field : Self -> A) : keeps_self (@attr Self Call A field).
Proof. intros w. reflexivity. Qed.

Lemma keeps_self_lift {A} (r : pyexc + A) : keeps_self (@lift Self Call A r).
Proof. destruct r; intros w; reflexivity. Qed.

Lemma keeps_self_perform {A} (transport : list Call -> Call -> result A) (c : Call) :
  keeps_self (@perform Self Call A transport c).
Proof. intros w. reflexivity. Qed.

Lemma keeps_self_bind {A B} (m : M Self Call A) (k : A -> M Self Call B) :
  keeps_self m -> (forall a, keeps_self (k a)) -> keeps_self (bind m k).
Proof.
  intros Hm Hk w. unfold bind.
  specialize (Hm w). destruct (m w) as [[a | e] w1]; simpl in *.
  - rewrite Hk. exact Hm.
  - exact Hm.
Qed.

Lemma keeps_self_try_except {A} (m : M Self Call A) (handler : pyexc -> option (M Self Call A)) :
  keeps_self m ->
  (forall e h, handler e = Some h -> keeps_self h) ->
  keeps_self (try_except m handler).
Proof.
  intros Hm Hh w. unfold try_except.
  specialize (Hm w). destruct (m w) as [[a | e] w1]; simpl in *.
  - exact Hm.
  - destruct (handler e) as [h |] eqn:E; simpl.
    + rewrite (Hh e h E). exact Hm.
    + exact Hm.
Qed.
End KeepsSelf.

Create HintDb stateless.
#[export] Hint Resolve keeps_self_ret keeps_self_raise keeps_self_attr keeps_self_lift
  keeps_self_perform keeps_self_bind keeps_self_try_except : stateless.

Lemma keeps_self_raise_for_status (response : Response) :
  keeps_self (call_raise_for_status response).
Proof. unfold call_raise_for_status. destruct (raise_for_status response); auto with stateless. Qed.

Lemma keeps_self_json (response : Response) : keeps_self (call_json response).
Proof. unfold call_json. destruct (json response); auto with stateless. Qed.

Lemma keeps_self_except_Fault {A} (e : pyexc) (h : M TestLinkAPIClient RpcCall A) :
  except_Fault e = Some h -> keeps_self h.
Proof. destruct e; simpl; intros H; inversion H; auto with stateless. Qed.

#[export] Hint Resolve keeps_self_raise_for_status keeps_self_json keeps_self_except_Fault
  : stateless.

Ltac stateless :=
  repeat (intros; first
    [ apply keeps_self_bind
    | apply keeps_self_try_except
    | solve [eauto with stateless] ]).

Ltac fold_keeps :=
  match goal with
  | |- forall w, self (snd (?m w)) = self w => change (keeps_self m)
  end.

Lemma keeps_self_report_result xmlrpc tc tp b st notes :
  keeps_self (report_result xmlrpc tc tp b st notes).
Proof. unfold report_result, server_call. stateless. Qed.

Lemma keeps_self_report_loop xmlrpc tp b results :
  forall responses, keeps_self (report_loop xmlrpc tp b results responses).
Proof.
  induction results as [| r rest IH]; intros responses; simpl.
  - auto with stateless.
  - pose proof (keeps_self_report_result xmlrpc). stateless.
Qed.

(** C8. No operation of either client assigns to its instance: after
    [add_result], [add_results_batch], [get_test], [get_run],
    [report_result], [report_multiple_results], [get_test_case] and
    [get_test_plan] the instance (base address, credentials, headers,
    transport handle, developer key) is the one the call started from,
    whether the call returned or raised. *)
Theorem operations_keep_client_configuration :
  (forall requests test_id status_id comment elapsed w,
      self (snd (add_result requests test_id status_id comment elapsed w)) = self w) /\
  (forall requests run_id results w,
      self (snd (add_results_batch requests run_id results w)) = self w) /\
  (forall requests test_id w, self (snd (get_test requests test_id w)) = self w) /\
  (forall requests run_id w, self (snd (get_run requests run_id w)) = self w) /\
  (forall xmlrpc testcase_id testplan_id build_id status notes w,
      self (snd (report_result xmlrpc testcase_id testplan_id build_id status notes w))
      = self w) /\
  (forall xmlrpc testplan_id build_id results w,
      self (snd (report_multiple_results xmlrpc testplan_id build_id results w)) = self w) /\
  (forall xmlrpc testcase_id w, self (snd (get_test_case xmlrpc testcase_id w)) = self w) /\
  (forall xmlrpc testplan_id w, self (snd (get_test_plan xmlrpc testplan_id w)) = self w).
Proof.
  repeat split; intros until w; revert w; fold_keeps.
  - unfold add_result, requests_post. stateless.
  - unfold add_results_batch, requests_post. stateless.
  - unfold get_test, requests_get. stateless.
  - unfold get_run, requests_get. stateless.
  - apply keeps_self_report_result.
  - apply keeps_self_report_loop.
  - unfold get_test_case, server_call. stateless.
  - unfold get_test_plan, server_call. stateless.
Qed.

(** ** The REST client: one request per operation *)

(** What the tail [raise_for_status(); return response.json()] of every
    REST method makes of the transport's answer. *)
Lemma rest_tail_run (requests : list Request -> Request -> result Response)
    (rq : Request) (w : world TestRailClient Request) :
  bind (perform requests rq)
       (fun response => bind (call_raise_for_status response)
                             (fun _ => call_json response)) w
  = (match requests (sent w) rq with
     | Raise e => Raise e
     | Ret response =>
         match raise_for_status response with
         | Some e => Raise e
         | None => json response
         end
     end,
     {| self := self w; sent := sent w ++ [rq] |}).
Proof.
  unfold bind, perform, call_raise_for_status, call_json, ret, raise.
  destruct (requests (sent w) rq) as [response | e]; [| reflexivity].
  destruct (raise_for_status response); [reflexivity |].
  destruct (json response); reflexivity.
Qed.

Lemma add_result_run requests test_id status_id comment elapsed w :
  add_result requests test_id status_id comment elapsed w
  = bind (perform requests
            (post_request (self w)
               (base_url (self w) +:+ "/index.php?/api/v2/add_result/" +:+ str_int test_id)
               (VDict {[ "status_id" := VInt status_id; "comment" := VStr comment;
                         "elapsed" := VStr elapsed ]})))
         (fun response => bind (call_raise_for_status response)
                               (fun _ => call_json response)) w.
Proof. reflexivity. Qed.

Lemma add_results_batch_run requests run_id results w :
  add_results_batch requests run_id results w
  = bind (perform requests
            (post_request (self w)
               (base_url (self w) +:+ "/index.php?/api/v2/add_results/" +:+ str_int run_id)
               (VDict {[ "results" := VList (VDict <$> results) ]})))
         (fun response => bind (call_raise_for_status response)
                               (fun _ => call_json response)) w.
Proof. reflexivity. Qed.

(** C2. For every run identifier and every list of records,
    [add_results_batch] issues exactly one transport call, a POST to the
    [add_results/{run_id}] endpoint whose body is the dictionary with the
    single key [results]; the list under that key is as long as the input
    and holds the records in input order. *)
Theorem add_results_batch_single_call requests (run_id : Z)
    (results : list (gmap string pyval)) (w : world TestRailClient Request) :
  exists body_results : list pyval,
    sent (snd (add_results_batch requests run_id results w))
    = sent w ++
      [ {| req_method := "POST";
           req_url := base_url (self w) +:+ "/index.php?/api/v2/add_results/"
                      +:+ str_int run_id;
           req_auth := auth (self w);
           req_headers := headers (self w);
           req_json := Some (VDict {[ "results" := VList body_results ]}) |} ] /\
    length (sent (snd (add_results_batch requests run_id results w)))
    = S (length (sent w)) /\
    length body_results = length results /\
    forall i, body_results !! i = VDict <$> (results !! i).
Proof.
  exists (VDict <$> results).
  rewrite add_results_batch_run, rest_tail_run. simpl.
  repeat split.
  - rewrite length_app. simpl. lia.
  - apply length_fmap.
  - intros i. apply list_lookup_fmap.
Qed.

(** C5. For every test id, status id, comment and elapsed time,
    [add_result] issues a single POST to the [add_result/{test_id}]
    endpoint with the JSON body [{status_id, comment, elapsed}]; when the
    transport reports a non-success status ([raise_for_status] raises) the
    call fails with that error, and otherwise it returns what
    [response.json()] decodes. *)
Theorem add_result_single_post requests (test_id status_id : Z)
    (comment elapsed : string) (w : world TestRailClient Request) :
  let rq :=
    {| req_method := "POST";
       req_url := base_url (self w) +:+ "/index.php?/api/v2/add_result/" +:+ str_int test_id;
       req_auth := auth (self w);
       req_headers := headers (self w);
       req_json := Some (VDict {[ "status_id" := VInt status_id;
                                  "comment" := VStr comment;
                                  "elapsed" := VStr elapsed ]}) |} in
  let run := add_result requests test_id status_id comment elapsed w in
  sent (snd run) = sent w ++ [rq] /\
  (forall response e,
      requests (sent w) rq = Ret response -> raise_for_status response = Some e ->
      fst run = Raise e) /\
  (forall response,
      requests (sent w) rq = Ret response -> raise_for_status response = None ->
      fst run = json response) /\
  (forall e, requests (sent w) rq = Raise e -> fst run = Raise e).
Proof.
  intros rq run. subst run. rewrite add_result_run, rest_tail_run.
  change (post_request _ _ _) with rq. simpl.
  repeat split.
  - intros response e -> ->. reflexivity.
  - intros response -> ->. reflexivity.
  - intros e ->. reflexivity.
Qed.

Lemma add_result_single_post_witness :
  let w := {| self := example_rail; sent := [] |} in
  let rq :=
    {| req_method := "POST";
       req_url := "https://example.testrail.io/index.php?/api/v2/add_result/1";
       req_auth := ("tester@example.com", "your_api_key_here");
       req_headers := {[ "Content-Type" := "application/json" ]};
       req_json := Some (VDict {[ "status_id" := VInt 1; "comment" := VStr "ok";
                                  "elapsed" := VStr "1m 30s" ]}) |} in
  sent (snd (add_result accepting_server 1 1 "ok" "1m 30s" w)) = [rq] /\
  fst (add_result accepting_server 1 1 "ok" "1m 30s" w) = Ret (VDict {[ "id" := VInt 1 ]}) /\
  fst (add_result rejecting_server 1 1 "ok" "1m 30s" w)
  = Raise (OtherError "requests.HTTPError" [VStr "500 Server Error"]).
Proof.
  intros w rq.
  destruct (add_result_single_post accepting_server 1 1 "ok" "1m 30s" w)
    as [Hsent [_ [Hok _]]].
  destruct (add_result_single_post rejecting_server 1 1 "ok" "1m 30s" w) as [_ [Hko _]].
  split; [exact Hsent |].
  split.
  - exact (Hok _ eq_refl eq_refl).
  - exact (Hko _ _ eq_refl eq_refl).
Defined.

(** ** The RPC client: one remote call per result *)

(** A method body [try: response = self.server.tl.<name>(data); return
    response  except Fault: raise Exception(...)] issues one remote call,
    returns its response as it is and surfaces what it raised. *)
Lemma guarded_call_run (xmlrpc : list RpcCall -> RpcCall -> result pyval)
    (name : string) (data : pyval) (w : world TestLinkAPIClient RpcCall) :
  try_except (bind (server_call xmlrpc name data) (fun response => ret response))
             except_Fault w
  = (match xmlrpc (sent w) (remote_call (self w) name data) with
     | Ret response => Ret response
     | Raise e => Raise (surfaced e)
     end,
     {| self := self w; sent := sent w ++ [remote_call (self w) name data] |}).
Proof.
  unfold try_except, bind, server_call, attr, perform, ret, remote_call. simpl.
  destruct (xmlrpc _ _) as [response | e]; [reflexivity |].
  destruct e; reflexivity.
Qed.

Lemma report_result_run xmlrpc testcase_id testplan_id build_id status notes w :
  report_result xmlrpc testcase_id testplan_id build_id status notes w
  = (match xmlrpc (sent w)
             (remote_call (self w) "tl.reportTCResult"
                (report_data (dev_key (self w)) testcase_id testplan_id build_id status notes))
     with
     | Ret response => Ret response
     | Raise e => Raise (surfaced e)
     end,
     {| self := self w;
        sent := sent w ++
                [remote_call (self w) "tl.reportTCResult"
                   (report_data (dev_key (self w)) testcase_id testplan_id build_id
                      status notes)] |}).
Proof.
  unfold report_result, bind at 1, attr.
  rewrite guarded_call_run. reflexivity.
Qed.

Lemma get_test_case_run xmlrpc testcase_id w :
  get_test_case xmlrpc testcase_id w
  = (match xmlrpc (sent w)
             (remote_call (self w) "tl.getTestCase"
                (VDict {[ "devKey" := VStr (dev_key (self w)); "testcaseid" := testcase_id ]}))
     with
     | Ret response => Ret response
     | Raise e => Raise (surfaced e)
     end,
     {| self := self w;
        sent := sent w ++
                [remote_call (self w) "tl.getTestCase"
                   (VDict {[ "devKey" := VStr (dev_key (self w));
                             "testcaseid" := testcase_id ]})] |}).
Proof.
  unfold get_test_case, bind at 1, attr.
  rewrite guarded_call_run. reflexivity.
Qed.

Lemma get_test_plan_run xmlrpc testplan_id w :
  get_test_plan xmlrpc testplan_id w
  = (match xmlrpc (sent w)
             (remote_call (self w) "tl.getTestPlanByID"
                (VDict {[ "devKey" := VStr (dev_key (self w)); "testplanid" := testplan_id ]}))
     with
     | Ret response => Ret response
     | Raise e => Raise (surfaced e)
     end,
     {| self := self w;
        sent := sent w ++
                [remote_call (self w) "tl.getTestPlanByID"
                   (VDict {[ "devKey" := VStr (dev_key (self w));
                             "testplanid" := testplan_id ]})] |}).
Proof.
  unfold get_test_plan, bind at 1, attr.
  rewrite guarded_call_run. reflexivity.
Qed.

(** What the client raises is never the transport's own fault object. *)
Lemma surfaced_not_Fault (e : pyexc) (code : Z) (msg : string) :
  surfaced e <> Fault code msg.
Proof. destruct e; discriminate. Qed.

(** C4. For every test case id, plan id, build id, status and notes,
    [report_result] builds the parameter structure [{devKey, testcaseid,
    testplanid, status, buildid, notes, overwrite=True}], invokes
    [tl.reportTCResult] once with it, and returns the transport's response
    unmodified when the transport returns one. *)
Theorem report_result_single_call xmlrpc
    (testcase_id testplan_id build_id status notes : pyval)
    (w : world TestLinkAPIClient RpcCall) :
  let data :=
    VDict {[ "devKey" := VStr (dev_key (self w)); "testcaseid" := testcase_id;
             "testplanid" := testplan_id; "status" := status; "buildid" := build_id;
             "notes" := notes; "overwrite" := VBool true ]} in
  let call :=
    {| rpc_uri := uri (server (self w)); rpc_method := "tl.reportTCResult";
       rpc_params := [data] |} in
  let run := report_result xmlrpc testcase_id testplan_id build_id status notes w in
  sent (snd run) = sent w ++ [call] /\
  (forall response, xmlrpc (sent w) call = Ret response -> fst run = Ret response).
Proof.
  intros data call run. subst run. rewrite report_result_run.
  change (remote_call _ _ _) with call. simpl.
  split; [reflexivity |].
  intros response ->. reflexivity.
Qed.

Lemma report_result_single_call_witness :
  let w := {| self := example_link; sent := [] |} in
  let run := report_result counting_server (VInt 1) (VInt 10) (VInt 5) (VStr "p") (VStr "ok") w in
  sent (snd run)
  = [ {| rpc_uri := "http://example.com/lib/api/xmlrpc/v1/xmlrpc.php";
         rpc_method := "tl.reportTCResult";
         rpc_params :=
           [VDict {[ "devKey" := VStr "K"; "testcaseid" := VInt 1;
                     "testplanid" := VInt 10; "status" := VStr "p";
                     "buildid" := VInt 5; "notes" := VStr "ok";
                     "overwrite" := VBool true ]}] |} ] /\
  fst run = Ret (VInt 0).
Proof.
  intros w run.
  destruct (report_result_single_call counting_server
              (VInt 1) (VInt 10) (VInt 5) (VStr "p") (VStr "ok") w) as [Hsent Hret].
  split.
  - exact Hsent.
  - exact (Hret (VInt 0) eq_refl).
Defined.

(** ** Protocol faults *)

(** C7, as stated, fails: when the transport answers [report_result] with
    the fault [(7, "boom")], the error the caller gets is not of a typed
    fault class: it is an instance of the builtin [Exception], and its
    arguments are one formatted string. *)
Lemma fault_reaches_caller_as_plain_exception :
  fst (report_result faulting_server (VInt 1) (VInt 10) (VInt 5) (VStr "p") (VStr "ok")
         {| self := example_link; sent := [] |})
  = Raise (PyException "XML-RPC Fault: 7 - boom") /\
  exc_class (PyException "XML-RPC Fault: 7 - boom") = "Exception" /\
  exc_args (PyException "XML-RPC Fault: 7 - boom") = [VStr "XML-RPC Fault: 7 - boom"].
Proof. repeat split. Qed.

(** C7, amended. Whenever the transport signals a fault with code [code]
    and message [msg], each of [report_result], [get_test_case] and
    [get_test_plan] raises the builtin [Exception] whose message is
    ["XML-RPC Fault: {code} - {msg}"]; and none of them ever raises the
    transport's [Fault] object itself. *)
Theorem rpc_fault_surfaces_as_exception xmlrpc (w : world TestLinkAPIClient RpcCall) :
  let key := VStr (dev_key (self w)) in
  let call name data :=
    {| rpc_uri := uri (server (self w)); rpc_method := name; rpc_params := [VDict data] |} in
  let message (code : Z) (msg : string) := "XML-RPC Fault: " +:+ str_int code +:+ " - " +:+ msg in
  (forall testcase_id testplan_id build_id status notes code msg,
      xmlrpc (sent w)
        (call "tl.reportTCResult"
           {[ "devKey" := key; "testcaseid" := testcase_id; "testplanid" := testplan_id;
              "status" := status; "buildid" := build_id; "notes" := notes;
              "overwrite" := VBool true ]})
      = Raise (Fault code msg) ->
      fst (report_result xmlrpc testcase_id testplan_id build_id status notes w)
      = Raise (PyException (message code msg))) /\
  (forall testcase_id code msg,
      xmlrpc (sent w)
        (call "tl.getTestCase" {[ "devKey" := key; "testcaseid" := testcase_id ]})
      = Raise (Fault code msg) ->
      fst (get_test_case xmlrpc testcase_id w) = Raise (PyException (message code msg))) /\
  (forall testplan_id code msg,
      xmlrpc (sent w)
        (call "tl.getTestPlanByID" {[ "devKey" := key; "testplanid" := testplan_id ]})
      = Raise (Fault code msg) ->
      fst (get_test_plan xmlrpc testplan_id w) = Raise (PyException (message code msg))) /\
  (forall testcase_id testplan_id build_id status notes code msg,
      fst (report_result xmlrpc testcase_id testplan_id build_id status notes w)
      <> Raise (Fault code msg)) /\
  (forall testcase_id code msg,
      fst (get_test_case xmlrpc testcase_id w) <> Raise (Fault code msg)) /\
  (forall testplan_id code msg,
      fst (get_test_plan xmlrpc testplan_id w) <> Raise (Fault code msg)).
Proof.
  intros key call message.
  assert (Hne : forall (r : result pyval) code msg,
             match r with Ret v => Ret v | Raise e => Raise (surfaced e) end
             <> Raise (Fault code msg)).
  { intros [v | e] code msg; [discriminate |].
    intros H. injection H. apply surfaced_not_Fault. }
  repeat split.
  - intros tc tp b st notes code msg H. rewrite report_result_run.
    unfold remote_call, report_data. simpl. subst key call. simpl in H.
    rewrite H. reflexivity.
  - intros tc code msg H. rewrite get_test_case_run.
    unfold remote_call. simpl. subst key call. simpl in H.
    rewrite H. reflexivity.
  - intros tp code msg H. rewrite get_test_plan_run.
    unfold remote_call. simpl. subst key call. simpl in H.
    rewrite H. reflexivity.
  - intros. rewrite report_result_run. apply Hne.
  - intros. rewrite get_test_case_run. apply Hne.
  - intros. rewrite get_test_plan_run. apply Hne.
Qed.

Lemma rpc_fault_surfaces_as_exception_witness :
  let w := {| self := example_link; sent := [] |} in
  fst (report_result faulting_server (VInt 1) (VInt 10) (VInt 5) (VStr "p") (VStr "ok") w)
  = Raise (PyException "XML-RPC Fault: 7 - boom") /\
  fst (get_test_case faulting_server (VInt 1) w)
  = Raise (PyException "XML-RPC Fault: 7 - boom") /\
  fst (get_test_plan faulting_server (VInt 10) w)
  = Raise (PyException "XML-RPC Fault: 7 - boom").
Proof.
  intros w.
  destruct (rpc_fault_surfaces_as_exception faulting_server w) as [H1 [H2 [H3 _]]].
  split; [| split].
  - exact (H1 (VInt 1) (VInt 10) (VInt 5) (VStr "p") (VStr "ok") 7 "boom" eq_refl).
  - exact (H2 (VInt 1) 7 "boom" eq_refl).
  - exact (H3 (VInt 10) 7 "boom" eq_refl).
Defined.

(** ** Statuses without a mapping *)

(** C6, as stated, fails: [report_result] with the unmapped status
    ["bogus"] raises nothing; the status is sent to the server as it is
    and the server's response is returned. *)
Lemma unmapped_status_is_sent_as_is :
  report_result counting_server (VInt 1) (VInt 10) (VInt 5) (VStr "bogus") (VStr "")
    {| self := example_link; sent := [] |}
  = (Ret (VInt 0),
     {| self := example_link;
        sent := [ {| rpc_uri := "http://example.com/lib/api/xmlrpc/v1/xmlrpc.php";
                     rpc_method := "tl.reportTCResult";
                     rpc_params :=
                       [VDict {[ "devKey" := VStr "K"; "testcaseid" := VInt 1;
                                 "testplanid" := VInt 10; "status" := VStr "bogus";
                                 "buildid" := VInt 5; "notes" := VStr "";
                                 "overwrite" := VBool true ]}] |} ] |}).
Proof. reflexivity. Qed.

(** The wrapper's lookup, case by case. *)
Lemma status_code_cases (url key status : string) :
  status_code (status_map (wrapper__init__ url key)) status
  = if String.eqb (lower status) "failed" then "f"
    else if String.eqb (lower status) "blocked" then "b"
    else "p".
Proof.
  unfold status_code, dict_get, wrapper__init__. simpl.
  destruct (String.eqb_spec (lower status) "failed") as [-> | Hf]; [reflexivity |].
  destruct (String.eqb_spec (lower status) "blocked") as [-> | Hb]; [reflexivity |].
  destruct (String.eqb_spec (lower status) "passed") as [-> | Hp]; [reflexivity |].
  rewrite lookup_insert_ne by congruence.
  rewrite lookup_insert_ne by congruence.
  rewrite lookup_insert_ne by congruence.
  reflexivity.
Qed.

(** C6, amended. No status fails fast: [report_result] forwards any
    status, and [add_result] any status id, unchanged to the transport and
    raises nothing of its own; the friendly wrapper maps a status whose
    lowercase is ["failed"] to ['f'], one whose lowercase is ["blocked"]
    to ['b'] and every other status, recognised or not, to ['p'], so that
    ["bogus"] maps to ['p'] while ["failed"] maps to ['f']; that code is
    the status of the one remote call it sends. *)
Theorem statuses_are_forwarded_or_defaulted :
  (forall xmlrpc testcase_id testplan_id build_id status notes
          (w : world TestLinkAPIClient RpcCall),
      let call :=
        {| rpc_uri := uri (server (self w)); rpc_method := "tl.reportTCResult";
           rpc_params :=
             [VDict {[ "devKey" := VStr (dev_key (self w)); "testcaseid" := testcase_id;
                       "testplanid" := testplan_id; "status" := status;
                       "buildid" := build_id; "notes" := notes;
                       "overwrite" := VBool true ]}] |} in
      report_result xmlrpc testcase_id testplan_id build_id status notes w
      = (match xmlrpc (sent w) call with
         | Ret response => Ret response
         | Raise e => Raise (surfaced e)
         end,
         {| self := self w; sent := sent w ++ [call] |})) /\
  (forall requests test_id status_id comment elapsed (w : world TestRailClient Request),
      exists rq,
        sent (snd (add_result requests test_id status_id comment elapsed w)) = sent w ++ [rq] /\
        req_json rq = Some (VDict {[ "status_id" := VInt status_id;
                                     "comment" := VStr comment;
                                     "elapsed" := VStr elapsed ]}) /\
        fst (add_result requests test_id status_id comment elapsed w)
        = match requests (sent w) rq with
          | Raise e => Raise e
          | Ret response =>
              match raise_for_status response with
              | Some e => Raise e
              | None => json response
              end
          end) /\
  (forall url key status,
      status_code (status_map (wrapper__init__ url key)) status
      = if String.eqb (lower status) "failed" then "f"
        else if String.eqb (lower status) "blocked" then "b"
        else "p") /\
  (forall url key,
      status_code (status_map (wrapper__init__ url key)) "bogus" = "p" /\
      status_code (status_map (wrapper__init__ url key)) "failed" = "f") /\
  (forall xmlrpc testcase_id testplan_id build_id status notes
          (w : world TestLinkAPIWrapper RpcCall),
      sent (snd (report_result_friendly xmlrpc testcase_id testplan_id build_id status notes w))
      = sent w ++
        [ {| rpc_uri := uri (server (client (self w))); rpc_method := "tl.reportTCResult";
             rpc_params :=
               [VDict {[ "devKey" := VStr (dev_key (client (self w)));
                         "testcaseid" := testcase_id; "testplanid" := testplan_id;
                         "status" := VStr (status_code (status_map (self w)) status);
                         "buildid" := build_id; "notes" := notes;
                         "overwrite" := VBool true ]}] |} ]).
Proof.
  split; [| split; [| split; [| split]]].
  - intros. apply report_result_run.
  - intros. eexists. rewrite add_result_run, rest_tail_run. simpl.
    split; [reflexivity |]. split; reflexivity.
  - apply status_code_cases.
  - intros url key. split; reflexivity.
  - intros. unfold report_result_friendly, bind, attr, on_client. simpl.
    rewrite report_result_run. reflexivity.
Qed.

(** ** [report_multiple_results]: the loop *)

Section Loop.
Variable xmlrpc : list RpcCall -> RpcCall -> result pyval.
Variables testplan_id build_id : pyval.

(** One turn of the loop on a record that has its two mandatory keys:
    one remote call; its response is appended, or what it raised leaves
    the loop. *)
Lemma report_loop_step (r : gmap string pyval) rest responses
    (w : world TestLinkAPIClient RpcCall) :
  well_formed r ->
  report_loop xmlrpc testplan_id build_id (r :: rest) responses w
  = match xmlrpc (sent w) (result_call (self w) testplan_id build_id r) with
    | Ret response =>
        report_loop xmlrpc testplan_id build_id rest (responses ++ [response])
          {| self := self w;
             sent := sent w ++ [result_call (self w) testplan_id build_id r] |}
    | Raise e =>
        (Raise (surfaced e),
         {| self := self w;
            sent := sent w ++ [result_call (self w) testplan_id build_id r] |})
    end.
Proof.
  intros [[tc Htc] [st Hst]].
  cbn [report_loop]. unfold bind at 1, lift, subscript. rewrite Htc. cbn [ret].
  unfold bind at 1. rewrite Hst. cbn [ret].
  unfold bind at 1. rewrite report_result_run.
  unfold result_call, dict_get. rewrite Htc, Hst. cbn [default].
  destruct (xmlrpc _ _); reflexivity.
Qed.

(** A missing [testcase_id] stops the loop with [KeyError] before any
    call for that record. *)
Lemma report_loop_key_error (r : gmap string pyval) rest responses
    (w : world TestLinkAPIClient RpcCall) :
  r !! "testcase_id" = None ->
  report_loop xmlrpc testplan_id build_id (r :: rest) responses w
  = (Raise (KeyError "testcase_id"), w).
Proof.
  intros H. cbn [report_loop]. unfold bind at 1, lift, subscript.
  rewrite H. reflexivity.
Qed.

Lemma report_loop_all_succeed results :
  forall responses (w : world TestLinkAPIClient RpcCall),
    Forall well_formed results ->
    (forall i c,
        (result_call (self w) testplan_id build_id <$> results) !! i = Some c ->
        exists v,
          xmlrpc (sent w ++ take i (result_call (self w) testplan_id build_id <$> results)) c
          = Ret v) ->
    exists vs,
      report_loop xmlrpc testplan_id build_id results responses w
      = (Ret (responses ++ vs),
         {| self := self w;
            sent := sent w ++ (result_call (self w) testplan_id build_id <$> results) |}) /\
      length vs = length results /\
      forall i c v,
        (result_call (self w) testplan_id build_id <$> results) !! i = Some c ->
        xmlrpc (sent w ++ take i (result_call (self w) testplan_id build_id <$> results)) c
        = Ret v ->
        vs !! i = Some v.
Proof.
  induction results as [| r rest IH]; intros responses w Hwf Hok.
  - exists []. cbn. rewrite !app_nil_r. destruct w. repeat split.
    intros i c v H. rewrite lookup_nil in H. discriminate.
  - inversion Hwf as [| ? ? Hr Hrest]; subst.
    destruct (Hok O _ eq_refl) as [v0 Hv0].
    cbn [take] in Hv0. rewrite app_nil_r in Hv0.
    rewrite (report_loop_step _ _ _ _ Hr), Hv0.
    set (c0 := result_call (self w) testplan_id build_id r) in *.
    destruct (IH (responses ++ [v0]) {| self := self w; sent := sent w ++ [c0] |} Hrest)
      as [vs [Hrun [Hlen Hvs]]].
    { intros i c Hc. cbn [self sent].
      rewrite <- app_assoc. exact (Hok (S i) c Hc). }
    exists (v0 :: vs). cbn [self sent] in *.
    rewrite Hrun, <- !app_assoc. repeat split.
    + cbn. rewrite Hlen. reflexivity.
    + intros [| i] c v Hc Hv.
      * cbn in Hc. injection Hc as Hc. subst c.
        cbn [take] in Hv. rewrite app_nil_r in Hv.
        unfold c0 in Hv0. rewrite Hv0 in Hv. injection Hv as Hv. subst v. reflexivity.
      * cbn. apply (Hvs i c v Hc). rewrite <- app_assoc. exact Hv.
Qed.

Lemma report_loop_first_failure results :
  forall responses (w : world TestLinkAPIClient RpcCall) k c e,
    Forall well_formed results ->
    (result_call (self w) testplan_id build_id <$> results) !! k = Some c ->
    (forall i c',
        (i < k)%nat ->
        (result_call (self w) testplan_id build_id <$> results) !! i = Some c' ->
        exists v,
          xmlrpc (sent w ++ take i (result_call (self w) testplan_id build_id <$> results)) c'
          = Ret v) ->
    xmlrpc (sent w ++ take k (result_call (self w) testplan_id build_id <$> results)) c
    = Raise e ->
    report_loop xmlrpc testplan_id build_id results responses w
    = (Raise (surfaced e),
       {| self := self w;
          sent := sent w ++
                  take (S k) (result_call (self w) testplan_id build_id <$> results) |}).
Proof.
  induction results as [| r rest IH]; intros responses w k c e Hwf Hk Hbefore Hfail.
  - destruct k; discriminate Hk.
  - inversion Hwf as [| ? ? Hr Hrest]; subst.
    rewrite (report_loop_step _ _ _ _ Hr).
    destruct k as [| k].
    + cbn in Hk. injection Hk as Hk. subst c.
      cbn [take] in Hfail. rewrite app_nil_r in Hfail.
      rewrite Hfail. reflexivity.
    + destruct (Hbefore O _ ltac:(lia) eq_refl) as [v0 Hv0].
      cbn [take] in Hv0. rewrite app_nil_r in Hv0. rewrite Hv0.
      set (c0 := result_call (self w) testplan_id build_id r) in *.
      rewrite (IH (responses ++ [v0]) {| self := self w; sent := sent w ++ [c0] |} k c e Hrest).
      * cbn [self sent]. rewrite <- app_assoc. reflexivity.
      * exact Hk.
      * intros i c' Hi Hc'. cbn [self sent]. rewrite <- app_assoc.
        apply (Hbefore (S i) c'); [lia | exact Hc'].
      * cbn [self sent]. rewrite <- app_assoc. exact Hfail.
Qed.
End Loop.

(** C3. For every list of records in the documented format,
    [report_multiple_results] issues one [tl.reportTCResult] call per
    record, in input order. When every call returns, the result is the list
    of the responses, one per record in the same order. When call [k] is
    the first to raise, the calls after it are never issued, no list is
    returned, and the caller receives exactly what the [k]-th
    [report_result] raised. *)
Theorem report_multiple_results_one_call_per_record xmlrpc
    (testplan_id build_id : pyval) (results : list (gmap string pyval))
    (w : world TestLinkAPIClient RpcCall) :
  Forall well_formed results ->
  let calls := result_call (self w) testplan_id build_id <$> results in
  let reply (i : nat) (c : RpcCall) := xmlrpc (sent w ++ take i calls) c in
  let run := report_multiple_results xmlrpc testplan_id build_id results w in
  length calls = length results /\
  ((forall i c, calls !! i = Some c -> exists v, reply i c = Ret v) ->
   exists responses,
     run = (Ret responses, {| self := self w; sent := sent w ++ calls |}) /\
     length responses = length results /\
     forall i c v, calls !! i = Some c -> reply i c = Ret v -> responses !! i = Some v) /\
  (forall k c e,
      calls !! k = Some c ->
      (forall i c', (i < k)%nat -> calls !! i = Some c' -> exists v, reply i c' = Ret v) ->
      reply k c = Raise e ->
      run = (Raise (surfaced e),
             {| self := self w; sent := sent w ++ take (S k) calls |}) /\
      forall r,
        results !! k = Some r ->
        report_result xmlrpc (dict_get r "testcase_id" VNone) testplan_id build_id
          (dict_get r "status" VNone) (dict_get r "notes" (VStr ""))
          {| self := self w; sent := sent w ++ take k calls |}
        = (Raise (surfaced e),
           {| self := self w; sent := sent w ++ take (S k) calls |})).
Proof.
  intros Hwf calls reply run. subst run reply. unfold report_multiple_results.
  split; [apply length_fmap |]. split.
  - intros Hok.
    destruct (report_loop_all_succeed xmlrpc testplan_id build_id results [] w Hwf Hok)
      as [vs [Hrun H]].
    exists vs. split; [exact Hrun | exact H].
  - intros k c e Hk Hbefore Hfail. split.
    + exact (report_loop_first_failure xmlrpc testplan_id build_id results [] w k c e
               Hwf Hk Hbefore Hfail).
    + intros r Hr. rewrite report_result_run. cbn [self sent].
      assert (Hc : c = result_call (self w) testplan_id build_id r).
      { subst calls. rewrite list_lookup_fmap, Hr in Hk. cbn in Hk. congruence. }
      fold (result_call (self w) testplan_id build_id r). rewrite <- Hc.
      rewrite Hfail, (take_S_r _ _ _ Hk), <- app_assoc. reflexivity.
Qed.

Lemma report_multiple_results_one_call_per_record_witness :
  let w := {| self := example_link; sent := [] |} in
  let calls := result_call example_link (VInt 10) (VInt 5) <$> test_results in
  Forall well_formed test_results /\
  report_multiple_results third_call_faults (VInt 10) (VInt 5) test_results w
  = (Raise (PyException "XML-RPC Fault: 7 - boom"),
     {| self := example_link; sent := take 3 calls |}) /\
  exists responses,
    report_multiple_results counting_server (VInt 10) (VInt 5) test_results w
    = (Ret responses, {| self := example_link; sent := calls |}) /\
    length responses = 4%nat /\
    responses !! 2%nat = Some (VInt 2).
Proof.
  intros w calls.
  assert (Hwf : Forall well_formed test_results).
  { unfold test_results. repeat constructor; eexists; reflexivity. }
  split; [exact Hwf |]. split.
  - destruct (report_multiple_results_one_call_per_record third_call_faults
                (VInt 10) (VInt 5) test_results w Hwf) as [_ [_ Hfail]].
    destruct (calls !! 2%nat) as [c |] eqn:Hc; [| discriminate Hc].
    refine (proj1 (Hfail 2%nat c (Fault 7 "boom") Hc _ eq_refl)).
    intros i c' Hi _. exists (VInt (Z.of_nat i)).
    destruct i as [| [| i]]; [reflexivity | reflexivity | lia].
  - destruct (report_multiple_results_one_call_per_record counting_server
                (VInt 10) (VInt 5) test_results w Hwf) as [_ [Hok _]].
    destruct Hok as [responses [Hrun [Hlen Hat]]].
    { intros i c _. eexists. reflexivity. }
    exists responses. split; [exact Hrun |]. split; [exact Hlen |].
    destruct (calls !! 2%nat) as [c |] eqn:Hc; [| discriminate Hc].
    exact (Hat 2%nat c (VInt 2) Hc eq_refl).
Defined.

(** ** The friendly wrapper's status names *)

(** The lowercase names are their own lowercase. *)
Lemma lower_of_status_names :
  lower "passed" = "passed" /\ lower "failed" = "failed" /\ lower "blocked" = "blocked".
Proof. repeat split. Qed.

(** What the wrapper puts on the wire, given the lowercase of its status
    argument. *)
Lemma friendly_run_by_lowercase xmlrpc (testcase_id testplan_id build_id notes : pyval)
    (status : string) (w : world TestLinkAPIWrapper RpcCall) :
  report_result_friendly xmlrpc testcase_id testplan_id build_id status notes w
  = on_client
      (report_result xmlrpc testcase_id testplan_id build_id
         (VStr (dict_get (status_map (self w)) (lower status) "p")) notes) w.
Proof. reflexivity. Qed.

(** C9. [report_result_friendly] lowercases its status before the lookup:
    for every spelling [status] of one of the names ["passed"], ["failed"],
    ["blocked"] that differs from it in letter case only, the code looked
    up and the code in the one remote call sent are the code of the
    lowercase name, ['p'], ['f'] and ['b'] respectively, and the whole call
    behaves as with the lowercase name. *)
Theorem friendly_status_is_case_insensitive xmlrpc (url key : string)
    (history : list RpcCall) (testcase_id testplan_id build_id notes : pyval)
    (status name : string) :
  lower status = name ->
  In name ["passed"; "failed"; "blocked"] ->
  let w := {| self := wrapper__init__ url key; sent := history |} in
  let code := status_code (status_map (self w)) in
  let call (c : string) :=
    {| rpc_uri := url; rpc_method := "tl.reportTCResult";
       rpc_params :=
         [VDict {[ "devKey" := VStr key; "testcaseid" := testcase_id;
                   "testplanid" := testplan_id; "status" := VStr c;
                   "buildid" := build_id; "notes" := notes;
                   "overwrite" := VBool true ]}] |} in
  let log :=
    sent (snd (report_result_friendly xmlrpc testcase_id testplan_id build_id
                 status notes w)) in
  code status = code name /\
  (name = "passed" -> code status = "p" /\ log = history ++ [call "p"]) /\
  (name = "failed" -> code status = "f" /\ log = history ++ [call "f"]) /\
  (name = "blocked" -> code status = "b" /\ log = history ++ [call "b"]) /\
  report_result_friendly xmlrpc testcase_id testplan_id build_id status notes w
  = report_result_friendly xmlrpc testcase_id testplan_id build_id name notes w.
Proof.
  intros Hlower Hname w code call log.
  assert (Hfix : lower name = name).
  { destruct lower_of_status_names as [Hp [Hf Hb]].
    destruct Hname as [<- | [<- | [<- | []]]]; assumption. }
  assert (Hlog : forall c, dict_get (status_map (self w)) name "p" = c ->
                           code status = c /\ log = history ++ [call c]).
  { intros c Hc. subst code log. unfold status_code.
    rewrite friendly_run_by_lowercase, Hlower, Hc. split; [reflexivity |].
    unfold on_client. rewrite report_result_run. reflexivity. }
  split; [| split; [| split; [| split]]].
  - subst code. unfold status_code. rewrite Hlower, Hfix. reflexivity.
  - intros E. apply Hlog. rewrite E. reflexivity.
  - intros E. apply Hlog. rewrite E. reflexivity.
  - intros E. apply Hlog. rewrite E. reflexivity.
  - rewrite !friendly_run_by_lowercase, Hlower, Hfix. reflexivity.
Qed.

Lemma friendly_status_is_case_insensitive_witness :
  let url := "http://example.com/lib/api/xmlrpc/v1/xmlrpc.php" in
  let w := {| self := example_wrapper; sent := [] |} in
  let code := status_code (status_map example_wrapper) in
  let sent_status (status : string) :=
    (fun c => match rpc_params c with
              | [VDict d] => d !! "status"
              | _ => None
              end)
    <$> sent (snd (report_result_friendly counting_server (VInt 1) (VInt 10) (VInt 5)
                     status (VStr "") w)) in
  (lower "PASSED" = "passed" /\ code "PASSED" = "p" /\
   sent_status "PASSED" = [Some (VStr "p")]) /\
  (lower "Failed" = "failed" /\ code "Failed" = "f" /\
   sent_status "Failed" = [Some (VStr "f")]) /\
  (lower blocked_with_kelvin_sign = "blocked" /\ code blocked_with_kelvin_sign = "b" /\
   sent_status blocked_with_kelvin_sign = [Some (VStr "b")]).
Proof.
  intros url w code sent_status.
  split; [| split]; (split; [reflexivity |]).
  - destruct (friendly_status_is_case_insensitive counting_server url "K" []
                (VInt 1) (VInt 10) (VInt 5) (VStr "") "PASSED" "passed" eq_refl
                (or_introl eq_refl)) as [_ [H _]].
    destruct (H eq_refl) as [Hcode Hlog].
    split; [exact Hcode |].
    exact (f_equal (fmap (M := list)
                      (fun c => match rpc_params c with
                                | [VDict d] => d !! "status"
                                | _ => None
                                end)) Hlog).
  - destruct (friendly_status_is_case_insensitive counting_server url "K" []
                (VInt 1) (VInt 10) (VInt 5) (VStr "") "Failed" "failed" eq_refl
                (or_intror (or_introl eq_refl))) as [_ [_ [H _]]].
    destruct (H eq_refl) as [Hcode Hlog].
    split; [exact Hcode |].
    exact (f_equal (fmap (M := list)
                      (fun c => match rpc_params c with
                                | [VDict d] => d !! "status"
                                | _ => None
                                end)) Hlog).
  - destruct (friendly_status_is_case_insensitive counting_server url "K" []
                (VInt 1) (VInt 10) (VInt 5) (VStr "") blocked_with_kelvin_sign "blocked"
                eq_refl (or_intror (or_intror (or_introl eq_refl)))) as [_ [_ [_ [H _]]]].
    destruct (H eq_refl) as [Hcode Hlog].
    split; [exact Hcode |].
    exact (f_equal (fmap (M := list)
                      (fun c => match rpc_params c with
                                | [VDict d] => d !! "status"
                                | _ => None
                                end)) Hlog).
Defined.

(** ** The status tables *)

(** C1, as stated, fails: the RPC status map has no code for [Untested];
    the wrapper's lookup falls back to ['p'], the code of [Passed]. *)
Lemma untested_has_no_rpc_code :
  status_map example_wrapper !! status_name Untested = None /\
  status_code (status_map example_wrapper) (status_name Untested)
  = status_code (status_map example_wrapper) (status_name Passed).
Proof. split; reflexivity. Qed.

(** C1, amended. The documented REST status ids are Passed=1, Failed=5,
    Blocked=2, Untested=3, Retest=4. The RPC status map gives Passed,
    Failed and Blocked the codes ['p'], ['f'], ['b'] and has no other
    entry: Untested and Retest have no RPC code of their own, the
    wrapper's lookup answers ['p'] for them, and whatever the status name
    its answer is one of ['p'], ['f'], ['b']. *)
Theorem status_code_tables (url key : string) :
  let m := status_map (wrapper__init__ url key) in
  (forall s : Status,
      status_id_of s
      = match s with
        | Passed => 1 | Failed => 5 | Blocked => 2 | Untested => 3 | Retest => 4
        end /\
      m !! status_name s
      = match s with
        | Passed => Some "p" | Failed => Some "f" | Blocked => Some "b"
        | Untested | Retest => None
        end /\
      status_code m (status_name s)
      = match s with
        | Failed => "f" | Blocked => "b" | Passed | Untested | Retest => "p"
        end) /\
  dom m = {[ "passed"; "failed"; "blocked" ]} /\
  (forall status : string, In (status_code m status) ["p"; "f"; "b"]).
Proof.
  intros m. split; [| split].
  - intros []; repeat split.
  - subst m. unfold wrapper__init__. cbn [status_map].
    rewrite !dom_insert_L, dom_empty_L. set_solver.
  - intros status. subst m. rewrite status_code_cases.
    destruct (String.eqb _ _); [simpl; tauto |].
    destruct (String.eqb _ _); simpl; tauto.
Qed.

(** ** Trailing slashes of the base URL *)

Lemma rstrip_only_slashes (n : nat) : rstrip "/" (slashes n) = "".
Proof. induction n as [| n IH]; simpl; [| rewrite IH]; reflexivity. Qed.

Lemma rstrip_slashes (base : string) (n : nat) :
  rstrip "/" (base +:+ slashes n) = rstrip "/" base.
Proof.
  induction base as [| a base IH]; simpl.
  - apply rstrip_only_slashes.
  - rewrite IH. reflexivity.
Qed.

(** What [rstrip('/')] returns does not end with a slash. *)
Lemma rstrip_no_trailing_slash (s : string) :
  forall t, rstrip "/" s <> t +:+ "/".
Proof.
  induction s as [| a s IH]; intros t; simpl.
  - destruct t; discriminate.
  - destruct (rstrip "/" s) as [| c r] eqn:E.
    + destruct (Ascii.eqb_spec a "/") as [-> | Ha]; simpl.
      * destruct t; discriminate.
      * destruct t as [| b [| ? ?]]; simpl; try discriminate.
        intros H. injection H as H. congruence.
    + destruct t as [| b t]; simpl; [discriminate |].
      intros H. injection H as _ H. exact (IH t H).
Qed.

Lemma get_test_run requests test_id w :
  get_test requests test_id w
  = bind (perform requests
            (get_request (self w)
               (base_url (self w) +:+ "/index.php?/api/v2/get_test/" +:+ str_int test_id)))
         (fun response => bind (call_raise_for_status response)
                               (fun _ => call_json response)) w.
Proof. reflexivity. Qed.

Lemma get_run_run requests run_id w :
  get_run requests run_id w
  = bind (perform requests
            (get_request (self w)
               (base_url (self w) +:+ "/index.php?/api/v2/get_run/" +:+ str_int run_id)))
         (fun response => bind (call_raise_for_status response)
                               (fun _ => call_json response)) w.
Proof. reflexivity. Qed.

(** C10. The constructor strips every trailing ['/'] of the base URL: the
    stored base never ends with a slash, a client built from a base URL
    followed by any number of slashes is the client built from the base
    URL itself, and the URL each of the four operations requests is the
    same for both. *)
Theorem trailing_slashes_are_stripped (base email api_key : string) (n : nat)
    (history : list Request) :
  let plain := TestRail.__init__ base email api_key in
  let slashed := TestRail.__init__ (base +:+ slashes n) email api_key in
  let url_of (run : result pyval * world TestRailClient Request) :=
    req_url <$> sent (snd run) in
  slashed = plain /\
  (forall t, base_url slashed <> t +:+ "/") /\
  (forall requests test_id status_id comment elapsed,
      url_of (add_result requests test_id status_id comment elapsed
                {| self := slashed; sent := history |})
      = (req_url <$> history) ++
        [rstrip "/" base +:+ "/index.php?/api/v2/add_result/" +:+ str_int test_id] /\
      add_result requests test_id status_id comment elapsed {| self := slashed; sent := history |}
      = add_result requests test_id status_id comment elapsed {| self := plain; sent := history |}) /\
  (forall requests run_id results,
      url_of (add_results_batch requests run_id results {| self := slashed; sent := history |})
      = (req_url <$> history) ++
        [rstrip "/" base +:+ "/index.php?/api/v2/add_results/" +:+ str_int run_id] /\
      add_results_batch requests run_id results {| self := slashed; sent := history |}
      = add_results_batch requests run_id results {| self := plain; sent := history |}) /\
  (forall requests test_id,
      url_of (get_test requests test_id {| self := slashed; sent := history |})
      = (req_url <$> history) ++
        [rstrip "/" base +:+ "/index.php?/api/v2/get_test/" +:+ str_int test_id] /\
      get_test requests test_id {| self := slashed; sent := history |}
      = get_test requests test_id {| self := plain; sent := history |}) /\
  (forall requests run_id,
      url_of (get_run requests run_id {| self := slashed; sent := history |})
      = (req_url <$> history) ++
        [rstrip "/" base +:+ "/index.php?/api/v2/get_run/" +:+ str_int run_id] /\
      get_run requests run_id {| self := slashed; sent := history |}
      = get_run requests run_id {| self := plain; sent := history |}).
Proof.
  intros plain slashed url_of.
  assert (Heq : slashed = plain).
  { subst slashed plain. unfold TestRail.__init__. rewrite rstrip_slashes. reflexivity. }
  split; [exact Heq |]. rewrite Heq. subst url_of plain.
  split; [intros t; apply rstrip_no_trailing_slash |].
  repeat split.
  - rewrite add_result_run, rest_tail_run. cbn [snd sent self]. rewrite fmap_app. reflexivity.
  - rewrite add_results_batch_run, rest_tail_run. cbn [snd sent self]. rewrite fmap_app. reflexivity.
  - rewrite get_test_run, rest_tail_run. cbn [snd sent self]. rewrite fmap_app. reflexivity.
  - rewrite get_run_run, rest_tail_run. cbn [snd sent self]. rewrite fmap_app. reflexivity.
Qed.

(** * Further properties of the two clients *)

(** ** The other REST methods *)

(** [get_test] and [get_run] issue one GET without a body, with the
    credentials and headers of the instance; an error status wins over the
    body, an exception of the HTTP library propagates, and otherwise the
    decoded body is returned. *)
Theorem read_operations_issue_one_get requests (id : Z) (w : world TestRailClient Request) :
  let get (api : string) :=
    {| req_method := "GET";
       req_url := base_url (self w) +:+ "/index.php?/api/v2/" +:+ api +:+ "/" +:+ str_int id;
       req_auth := auth (self w);
       req_headers := headers (self w);
       req_json := None |} in
  let outcome (rq : Request) :=
    match requests (sent w) rq with
    | Raise e => Raise e
    | Ret response =>
        match raise_for_status response with
        | Some e => Raise e
        | None => json response
        end
    end in
  get_test requests id w
  = (outcome (get "get_test"), {| self := self w; sent := sent w ++ [get "get_test"] |}) /\
  get_run requests id w
  = (outcome (get "get_run"), {| self := self w; sent := sent w ++ [get "get_run"] |}).
Proof.
  intros get outcome. split.
  - rewrite get_test_run, rest_tail_run. reflexivity.
  - rewrite get_run_run, rest_tail_run. reflexivity.
Qed.

(** What [add_results_batch] gives back: the error of [raise_for_status]
    when the status is an error, whatever the body; the error of [json()]
    when the body does not decode; the decoded body otherwise. In every
    case the batch has been sent once and is not sent again. *)
Theorem add_results_batch_outcome requests (run_id : Z)
    (results : list (gmap string pyval)) (w : world TestRailClient Request) :
  let run := add_results_batch requests run_id results w in
  exists rq,
    sent (snd run) = sent w ++ [rq] /\
    (forall e, requests (sent w) rq = Raise e -> fst run = Raise e) /\
    (forall response e,
        requests (sent w) rq = Ret response -> raise_for_status response = Some e ->
        fst run = Raise e) /\
    (forall response e,
        requests (sent w) rq = Ret response -> raise_for_status response = None ->
        json response = Raise e ->
        fst run = Raise e) /\
    (forall response v,
        requests (sent w) rq = Ret response -> raise_for_status response = None ->
        json response = Ret v ->
        fst run = Ret v).
Proof.
  intros run. subst run. eexists.
  rewrite add_results_batch_run, rest_tail_run. cbn [fst snd sent].
  split; [reflexivity |]. repeat split.
  - intros e ->. reflexivity.
  - intros response e -> ->. reflexivity.
  - intros response e -> -> ->. reflexivity.
  - intros response v -> -> ->. reflexivity.
Qed.

Lemma add_results_batch_outcome_witness :
  let w := {| self := example_rail; sent := [] |} in
  fst (add_results_batch accepting_server 42 [] w) = Ret (VDict {[ "id" := VInt 1 ]}) /\
  fst (add_results_batch rejecting_server 42 [] w)
  = Raise (OtherError "requests.HTTPError" [VStr "500 Server Error"]) /\
  fst (add_results_batch garbling_server 42 [] w)
  = Raise (OtherError "requests.JSONDecodeError" [VStr "Expecting value"]).
Proof.
  intros w.
  destruct (add_results_batch_outcome accepting_server 42 [] w) as [rq1 [H1 [_ [_ [_ Hok]]]]].
  destruct (add_results_batch_outcome rejecting_server 42 [] w) as [rq2 [H2 [_ [Hko _]]]].
  destruct (add_results_batch_outcome garbling_server 42 [] w) as [rq3 [H3 [_ [_ [Hbad _]]]]].
  split; [| split].
  - exact (Hok _ _ eq_refl eq_refl eq_refl).
  - exact (Hko _ _ eq_refl eq_refl).
  - exact (Hbad _ _ eq_refl eq_refl eq_refl).
Defined.

(** ** The other RPC methods and the errors that are not faults *)

(** [get_test_case] and [get_test_plan] issue one remote call,
    [tl.getTestCase] and [tl.getTestPlanByID], whose only argument holds
    the developer key and the id; the response is returned as it is. *)
Theorem rpc_read_operations_issue_one_call xmlrpc (id : pyval)
    (w : world TestLinkAPIClient RpcCall) :
  let call (name key : string) :=
    {| rpc_uri := uri (server (self w)); rpc_method := name;
       rpc_params := [VDict {[ "devKey" := VStr (dev_key (self w)); key := id ]}] |} in
  let outcome (c : RpcCall) :=
    match xmlrpc (sent w) c with
    | Ret response => Ret response
    | Raise e => Raise (surfaced e)
    end in
  get_test_case xmlrpc id w
  = (outcome (call "tl.getTestCase" "testcaseid"),
     {| self := self w; sent := sent w ++ [call "tl.getTestCase" "testcaseid"] |}) /\
  get_test_plan xmlrpc id w
  = (outcome (call "tl.getTestPlanByID" "testplanid"),
     {| self := self w; sent := sent w ++ [call "tl.getTestPlanByID" "testplanid"] |}).
Proof.
  intros call outcome. split.
  - apply get_test_case_run.
  - apply get_test_plan_run.
Qed.

(** Only [xmlrpc.client.Fault] is caught. *)
Lemma surfaced_other (e : pyexc) :
  (forall code msg, e <> Fault code msg) -> surfaced e = e.
Proof. destruct e; intros H; try reflexivity. destruct (H _ _ eq_refl). Qed.

(** An exception of the transport that is not a [Fault] (a refused
    connection, a protocol error) leaves [report_result], [get_test_case]
    and [get_test_plan] unchanged: their [except] clause catches faults
    only. *)
Theorem other_transport_errors_pass_unchanged xmlrpc
    (w : world TestLinkAPIClient RpcCall) (e : pyexc) :
  (forall code msg, e <> Fault code msg) ->
  (forall testcase_id testplan_id build_id status notes,
      xmlrpc (sent w)
        (remote_call (self w) "tl.reportTCResult"
           (report_data (dev_key (self w)) testcase_id testplan_id build_id status notes))
      = Raise e ->
      fst (report_result xmlrpc testcase_id testplan_id build_id status notes w) = Raise e) /\
  (forall testcase_id,
      xmlrpc (sent w)
        (remote_call (self w) "tl.getTestCase"
           (VDict {[ "devKey" := VStr (dev_key (self w)); "testcaseid" := testcase_id ]}))
      = Raise e ->
      fst (get_test_case xmlrpc testcase_id w) = Raise e) /\
  (forall testplan_id,
      xmlrpc (sent w)
        (remote_call (self w) "tl.getTestPlanByID"
           (VDict {[ "devKey" := VStr (dev_key (self w)); "testplanid" := testplan_id ]}))
      = Raise e ->
      fst (get_test_plan xmlrpc testplan_id w) = Raise e).
Proof.
  intros He. repeat split.
  - intros tc tp b st notes H. rewrite report_result_run. cbn [fst].
    rewrite H, (surfaced_other e He). reflexivity.
  - intros tc H. rewrite get_test_case_run. cbn [fst].
    rewrite H, (surfaced_other e He). reflexivity.
  - intros tp H. rewrite get_test_plan_run. cbn [fst].
    rewrite H, (surfaced_other e He). reflexivity.
Qed.

Lemma other_transport_errors_pass_unchanged_witness :
  let w := {| self := example_link; sent := [] |} in
  let refused := OtherError "ConnectionRefusedError" [VInt 111; VStr "Connection refused"] in
  fst (report_result unreachable_server (VInt 1) (VInt 10) (VInt 5) (VStr "p") (VStr "") w)
  = Raise refused /\
  fst (get_test_case unreachable_server (VInt 1) w) = Raise refused /\
  fst (get_test_plan unreachable_server (VInt 10) w) = Raise refused.
Proof.
  intros w refused.
  assert (Hnot : forall code msg, refused <> Fault code msg) by (intros; discriminate).
  destruct (other_transport_errors_pass_unchanged unreachable_server w refused Hnot)
    as [H1 [H2 H3]].
  split; [| split].
  - exact (H1 (VInt 1) (VInt 10) (VInt 5) (VStr "p") (VStr "") eq_refl).
  - exact (H2 (VInt 1) eq_refl).
  - exact (H3 (VInt 10) eq_refl).
Defined.

(** ** [report_multiple_results] on arbitrary records *)

Section LoopAlgebra.
Variable xmlrpc : list RpcCall -> RpcCall -> result pyval.
Variables testplan_id build_id : pyval.

(** One turn of the loop, whatever the record: the two subscripts, then
    [report_result], then the rest of the list. *)
Lemma report_loop_cons (r : gmap string pyval) rest responses
    (w : world TestLinkAPIClient RpcCall) :
  report_loop xmlrpc testplan_id build_id (r :: rest) responses w
  = match r !! "testcase_id", r !! "status" with
    | None, _ => (Raise (KeyError "testcase_id"), w)
    | Some _, None => (Raise (KeyError "status"), w)
    | Some testcase_id, Some status =>
        match report_result xmlrpc testcase_id testplan_id build_id status
                (dict_get r "notes" (VStr "")) w with
        | (Ret response, w') =>
            report_loop xmlrpc testplan_id build_id rest (responses ++ [response]) w'
        | (Raise e, w') => (Raise e, w')
        end
    end.
Proof.
  cbn [report_loop]. unfold bind at 1, lift, subscript.
  destruct (r !! "testcase_id") as [tc |]; [| reflexivity]. cbn [ret].
  unfold bind at 1.
  destruct (r !! "status") as [st |]; [| reflexivity]. cbn [ret].
  unfold bind at 1. reflexivity.
Qed.

(** The responses collected before the loop starts are only ever
    extended. *)
Lemma report_loop_accumulates results :
  forall responses (w : world TestLinkAPIClient RpcCall),
    report_loop xmlrpc testplan_id build_id results responses w
    = match report_loop xmlrpc testplan_id build_id results [] w with
      | (Ret more, w') => (Ret (responses ++ more), w')
      | (Raise e, w') => (Raise e, w')
      end.
Proof.
  induction results as [| r rest IH]; intros responses w.
  - cbn. rewrite app_nil_r. reflexivity.
  - rewrite !report_loop_cons.
    destruct (r !! "testcase_id") as [tc |]; [| reflexivity].
    destruct (r !! "status") as [st |]; [| reflexivity].
    destruct (report_result _ _ _ _ _ _ w) as [[v | e] w1]; [| reflexivity].
    rewrite (IH (responses ++ [v])), (IH ([] ++ [v])).
    destruct (report_loop _ _ _ rest [] w1) as [[more | e] w2]; [| reflexivity].
    rewrite <- app_assoc. reflexivity.
Qed.

Lemma report_loop_app first :
  forall second responses (w : world TestLinkAPIClient RpcCall),
    report_loop xmlrpc testplan_id build_id (first ++ second) responses w
    = match report_loop xmlrpc testplan_id build_id first responses w with
      | (Ret collected, w') =>
          report_loop xmlrpc testplan_id build_id second collected w'
      | (Raise e, w') => (Raise e, w')
      end.
Proof.
  induction first as [| r rest IH]; intros second responses w.
  - reflexivity.
  - rewrite <- app_comm_cons, !report_loop_cons.
    destruct (r !! "testcase_id") as [tc |]; [| reflexivity].
    destruct (r !! "status") as [st |]; [| reflexivity].
    destruct (report_result _ _ _ _ _ _ w) as [[v | e] w1]; [| reflexivity].
    apply IH.
Qed.

(** The log after the loop is the log before it followed by the calls of
    the first [k] records, for some [k]; when the loop returns, [k] is the
    number of records and one response per record was added. *)
Lemma report_loop_prefix results :
  forall responses (w : world TestLinkAPIClient RpcCall),
    exists k : nat,
      (k <= length results)%nat /\
      snd (report_loop xmlrpc testplan_id build_id results responses w)
      = {| self := self w;
           sent := sent w ++
                   take k (result_call (self w) testplan_id build_id <$> results) |} /\
      forall collected,
        fst (report_loop xmlrpc testplan_id build_id results responses w) = Ret collected ->
        k = length results /\
        length collected = (length responses + length results)%nat.
Proof.
  induction results as [| r rest IH]; intros responses w.
  - exists O. cbn. rewrite app_nil_r. destruct w.
    split; [lia |]. split; [reflexivity |].
    intros collected [= <-]. lia.
  - rewrite report_loop_cons.
    destruct (r !! "testcase_id") as [tc |] eqn:Htc.
    2: { exists O. cbn. rewrite app_nil_r. destruct w.
         split; [lia |]. split; [reflexivity | discriminate]. }
    destruct (r !! "status") as [st |] eqn:Hst.
    2: { exists O. cbn. rewrite app_nil_r. destruct w.
         split; [lia |]. split; [reflexivity | discriminate]. }
    rewrite report_result_run.
    assert (Hcall : remote_call (self w) "tl.reportTCResult"
                      (report_data (dev_key (self w)) tc testplan_id build_id st
                         (dict_get r "notes" (VStr "")))
                    = result_call (self w) testplan_id build_id r).
    { unfold result_call, dict_get. rewrite Htc, Hst. reflexivity. }
    rewrite Hcall.
    destruct (xmlrpc (sent w) (result_call (self w) testplan_id build_id r)) as [v | e].
    + destruct (IH (responses ++ [v])
                  {| self := self w;
                     sent := sent w ++ [result_call (self w) testplan_id build_id r] |})
        as [k [Hk [Hsnd Hret]]].
      exists (S k). cbn [self sent] in *.
      split; [cbn; lia |]. split.
      * rewrite Hsnd, <- app_assoc. reflexivity.
      * intros collected H. apply Hret in H. rewrite length_app in H. cbn in *. lia.
    + exists 1%nat. cbn.
      split; [lia |]. split; [reflexivity | discriminate].
Qed.
End LoopAlgebra.

(** Whatever the records and whatever the server does,
    [report_multiple_results] issues the calls of the first [k] records
    and no other, for some [k] up to the number of records; it returns a
    list only when [k] is the number of records, and the list then has one
    response per record. The empty list costs no call. *)
Theorem report_multiple_results_call_prefix xmlrpc (testplan_id build_id : pyval)
    (results : list (gmap string pyval)) (w : world TestLinkAPIClient RpcCall) :
  let run := report_multiple_results xmlrpc testplan_id build_id results w in
  report_multiple_results xmlrpc testplan_id build_id [] w = (Ret [], w) /\
  exists k : nat,
    (k <= length results)%nat /\
    snd run
    = {| self := self w;
         sent := sent w ++ take k (result_call (self w) testplan_id build_id <$> results) |} /\
    forall responses,
      fst run = Ret responses ->
      k = length results /\ length responses = length results.
Proof.
  intros run. subst run. unfold report_multiple_results.
  split; [reflexivity |].
  destruct (report_loop_prefix xmlrpc testplan_id build_id results [] w)
    as [k [Hk [Hsnd Hret]]].
  exists k. split; [exact Hk |]. split; [exact Hsnd |].
  intros responses H. apply Hret in H. cbn in H. exact H.
Qed.

Lemma report_multiple_results_call_prefix_witness :
  let w := {| self := example_link; sent := [] |} in
  exists k : nat,
    snd (report_multiple_results counting_server (VInt 10) (VInt 5) test_results w)
    = {| self := example_link;
         sent := take k (result_call example_link (VInt 10) (VInt 5) <$> test_results) |} /\
    k = 4%nat.
Proof.
  intros w.
  destruct (report_multiple_results_call_prefix counting_server (VInt 10) (VInt 5)
              test_results w) as [_ [k [_ [Hsnd Hret]]]].
  exists k. split; [exact Hsnd |].
  exact (proj1 (Hret _ eq_refl)).
Defined.

(** A record without [testcase_id], or with it and without [status],
    stops [report_multiple_results] with [KeyError] on that key: the
    records before it have been reported and stay reported, their
    responses are not returned, and no call is made for the record or for
    any record after it. *)
Theorem incomplete_record_raises_key_error xmlrpc (testplan_id build_id : pyval)
    (reported : list (gmap string pyval)) (r : gmap string pyval)
    (rest : list (gmap string pyval)) (key : string)
    (w : world TestLinkAPIClient RpcCall) :
  let calls := result_call (self w) testplan_id build_id <$> reported in
  Forall well_formed reported ->
  (forall i c, calls !! i = Some c -> exists v, xmlrpc (sent w ++ take i calls) c = Ret v) ->
  missing_key r = Some key ->
  report_multiple_results xmlrpc testplan_id build_id (reported ++ r :: rest) w
  = (Raise (KeyError key), {| self := self w; sent := sent w ++ calls |}).
Proof.
  intros calls Hwf Hok Hkey. unfold report_multiple_results.
  rewrite report_loop_app.
  destruct (report_loop_all_succeed xmlrpc testplan_id build_id reported [] w Hwf Hok)
    as [vs [Hrun _]].
  rewrite Hrun, report_loop_cons. unfold missing_key in Hkey.
  destruct (r !! "testcase_id"); [| injection Hkey as <-; reflexivity].
  destruct (r !! "status"); [discriminate | injection Hkey as <-; reflexivity].
Qed.

Lemma incomplete_record_raises_key_error_witness :
  let w := {| self := example_link; sent := [] |} in
  let first := {[ "testcase_id" := VInt 101; "status" := VStr "p" ]} in
  report_multiple_results counting_server (VInt 10) (VInt 5)
    ([first] ++ {[ "testcase_id" := VInt 102 ]} :: test_results) w
  = (Raise (KeyError "status"),
     {| self := example_link;
        sent := [result_call example_link (VInt 10) (VInt 5) first] |}) /\
  report_multiple_results counting_server (VInt 10) (VInt 5)
    ([] ++ {[ "test_id" := VInt 101; "status_id" := VInt 1 ]} :: test_results) w
  = (Raise (KeyError "testcase_id"), {| self := example_link; sent := [] |}).
Proof.
  intros w first. split.
  - apply (incomplete_record_raises_key_error counting_server (VInt 10) (VInt 5)
             [first] {[ "testcase_id" := VInt 102 ]} test_results "status" w).
    + repeat constructor; eexists; reflexivity.
    + intros i c _. eexists. reflexivity.
    + reflexivity.
  - apply (incomplete_record_raises_key_error counting_server (VInt 10) (VInt 5)
             [] {[ "test_id" := VInt 101; "status_id" := VInt 1 ]} test_results
             "testcase_id" w).
    + constructor.
    + intros i c _. eexists. reflexivity.
    + reflexivity.
Defined.

(** Reporting a list in two parts, one after the other, is reporting the
    whole list: the second part is sent only if the first returned, and
    the responses are those of the first part followed by those of the
    second. *)
Theorem report_multiple_results_in_two_parts xmlrpc (testplan_id build_id : pyval)
    (first second : list (gmap string pyval)) (w : world TestLinkAPIClient RpcCall) :
  report_multiple_results xmlrpc testplan_id build_id (first ++ second) w
  = match report_multiple_results xmlrpc testplan_id build_id first w with
    | (Ret responses1, w1) =>
        match report_multiple_results xmlrpc testplan_id build_id second w1 with
        | (Ret responses2, w2) => (Ret (responses1 ++ responses2), w2)
        | (Raise e, w2) => (Raise e, w2)
        end
    | (Raise e, w1) => (Raise e, w1)
    end.
Proof.
  unfold report_multiple_results. rewrite report_loop_app.
  destruct (report_loop _ _ _ first [] w) as [[responses1 | e] w1]; [| reflexivity].
  apply report_loop_accumulates.
Qed.

(** The loop reads three keys of a record and nothing else: two lists
    whose records agree on [testcase_id], on [status] and on the notes
    after defaulting are reported by the same calls with the same
    outcome. Extra keys are ignored, and a record without [notes] is
    reported like the record with empty notes. *)
Theorem only_three_keys_are_read xmlrpc (testplan_id build_id : pyval)
    (results1 results2 : list (gmap string pyval)) (w : world TestLinkAPIClient RpcCall) :
  Forall2 same_report_fields results1 results2 ->
  report_multiple_results xmlrpc testplan_id build_id results1 w
  = report_multiple_results xmlrpc testplan_id build_id results2 w.
Proof.
  unfold report_multiple_results. generalize (@nil pyval) as responses. revert w.
  intros w responses H. revert w responses.
  induction H as [| r1 r2 rest1 rest2 [Htc [Hst Hnotes]] _ IH]; intros w responses.
  - reflexivity.
  - rewrite !report_loop_cons, Htc, Hst, Hnotes.
    destruct (r2 !! "testcase_id") as [tc |]; [| reflexivity].
    destruct (r2 !! "status") as [st |]; [| reflexivity].
    destruct (report_result _ _ _ _ _ _ w) as [[v | e] w1]; [| reflexivity].
    apply IH.
Qed.

Lemma only_three_keys_are_read_witness :
  let w := {| self := example_link; sent := [] |} in
  report_multiple_results counting_server (VInt 10) (VInt 5)
    [ {[ "testcase_id" := VInt 101; "status" := VStr "p" ]} ] w
  = report_multiple_results counting_server (VInt 10) (VInt 5)
      [ {[ "testcase_id" := VInt 101; "status" := VStr "p"; "notes" := VStr "";
           "elapsed" := VStr "2s" ]} ] w.
Proof.
  intros w.
  apply (only_three_keys_are_read counting_server (VInt 10) (VInt 5)).
  repeat constructor.
Defined.

(** ** The friendly wrapper *)

(** [report_result_friendly] is [report_result] of the wrapped client with
    the looked-up code: same outcome, same calls; and the wrapper, its
    client and its status map are afterwards what they were before. *)
Theorem friendly_wrapper_delegates xmlrpc (testcase_id testplan_id build_id : pyval)
    (status : string) (notes : pyval) (w : world TestLinkAPIWrapper RpcCall) :
  let inner :=
    report_result xmlrpc testcase_id testplan_id build_id
      (VStr (status_code (status_map (self w)) status)) notes
      {| self := client (self w); sent := sent w |} in
  report_result_friendly xmlrpc testcase_id testplan_id build_id status notes w
  = (fst inner, {| self := self w; sent := sent (snd inner) |}).
Proof.
  intros inner. subst inner.
  unfold report_result_friendly, bind, attr, on_client.
  rewrite report_result_run. cbn [fst snd self sent].
  destruct w as [[c m] history]. reflexivity.
Qed.

(** Appending to a string never yields one of the wrapper's keys unless
    the appended character is its last one. *)
Lemma lower_three (a b c : ascii) (rest : string) :
  lower (String a (String b (String c rest)))
  = if is_kelvin_sign a b c then String "k" (lower rest)
    else String (lower_ascii a) (lower (String b (String c rest))).
Proof. reflexivity. Qed.

(** Lowercasing keeps a space at the end of a text. *)
Lemma lower_keeps_trailing_space_upto (n : nat) :
  forall s, (String.length s <= n)%nat -> exists t, lower (s +:+ " ") = t +:+ " ".
Proof.
  induction n as [| n IH]; intros s Hn.
  - destruct s; [exists ""; reflexivity | simpl in Hn; lia].
  - destruct s as [| a [| b [| c rest]]].
    + exists "". reflexivity.
    + exists (String (lower_ascii a) ""). reflexivity.
    + exists (String (lower_ascii a) (String (lower_ascii b) "")).
      change (lower (String a (String b " "))
              = String (lower_ascii a) (String (lower_ascii b) " ")).
      rewrite lower_three. unfold is_kelvin_sign.
      rewrite andb_false_r. reflexivity.
    + change (exists t, lower (String a (String b (String c (rest +:+ " ")))) = t +:+ " ").
      rewrite lower_three. simpl in Hn.
      destruct (is_kelvin_sign a b c).
      * destruct (IH rest ltac:(lia)) as [t Ht]. exists (String "k" t).
        rewrite Ht. reflexivity.
      * destruct (IH (String b (String c rest)) ltac:(simpl; lia)) as [t Ht].
        exists (String (lower_ascii a) t).
        change (String b (String c (rest +:+ " "))) with (String b (String c rest) +:+ " ").
        rewrite Ht. reflexivity.
Qed.

Lemma lower_keeps_trailing_space (s : string) : exists t, lower (s +:+ " ") = t +:+ " ".
Proof. exact (lower_keeps_trailing_space_upto (String.length s) s (le_n _)). Qed.

(** Lowercasing keeps a space at the start of a text. *)
Lemma lower_keeps_leading_space (s : string) : exists t, lower (" " +:+ s) = String " " t.
Proof.
  destruct s as [| b [| c rest]].
  - exists "". reflexivity.
  - exists (String (lower_ascii b) ""). reflexivity.
  - exists (lower (String b (String c rest))). reflexivity.
Qed.

Lemma padded_is_not_failed (s : string) : s +:+ " " <> "failed".
Proof.
  intros H.
  repeat (destruct s as [| ? s]; simpl in H; [discriminate H | injection H as _ H]).
  destruct s; discriminate H.
Qed.

Lemma padded_is_not_blocked (s : string) : s +:+ " " <> "blocked".
Proof.
  intros H.
  repeat (destruct s as [| ? s]; simpl in H; [discriminate H | injection H as _ H]).
  destruct s; discriminate H.
Qed.

(** The wrapper's lookup recognises the exact names only. A status that
    is already a TestLink code is not one of them, so the lookup applied
    to its own answer gives ['p'] whatever the status was; and a name
    with a space before or after it is not trimmed and gives ['p'] too. *)
Theorem friendly_lookup_takes_names_only (url key : string) (status : string) :
  let code := status_code (status_map (wrapper__init__ url key)) in
  code (code status) = "p" /\
  code (status +:+ " ") = "p" /\
  code (" " +:+ status) = "p".
Proof.
  intros code. subst code. split; [| split].
  - rewrite (status_code_cases url key status).
    destruct (String.eqb _ _); [reflexivity |].
    destruct (String.eqb _ _); reflexivity.
  - rewrite status_code_cases.
    destruct (lower_keeps_trailing_space status) as [t ->].
    destruct (String.eqb_spec (t +:+ " ") "failed") as [H | _];
      [destruct (padded_is_not_failed _ H) |].
    destruct (String.eqb_spec (t +:+ " ") "blocked") as [H | _];
      [destruct (padded_is_not_blocked _ H) |].
    reflexivity.
  - rewrite status_code_cases.
    destruct (lower_keeps_leading_space status) as [t ->]. reflexivity.
Qed.

(** ** What the constructor does to the base URL *)

Lemma append_nil_r (s : string) : s +:+ "" = s.
Proof.
  induction s as [| a s IH]; [reflexivity |].
  change (String a (s +:+ "") = String a s). rewrite IH. reflexivity.
Qed.

Lemma append_assoc (s t u : string) : (s +:+ t) +:+ u = s +:+ (t +:+ u).
Proof.
  induction s as [| a s IH]; [reflexivity |].
  change (String a ((s +:+ t) +:+ u) = String a (s +:+ (t +:+ u))). rewrite IH. reflexivity.
Qed.

Lemma slashes_snoc (n : nat) : slashes (S n) = slashes n +:+ "/".
Proof.
  induction n as [| n IH]; [reflexivity |].
  change (String "/" (slashes (S n)) = String "/" (slashes n +:+ "/")).
  rewrite <- IH. reflexivity.
Qed.

(** [rstrip('/')] removes slashes, and only from the end. *)
Lemma rstrip_decompose (s : string) : exists n, s = rstrip "/" s +:+ slashes n.
Proof.
  induction s as [| a s [n IH]].
  - exists O. reflexivity.
  - simpl. destruct (rstrip "/" s) as [| c r] eqn:E.
    + change (s = slashes n) in IH.
      destruct (Ascii.eqb_spec a "/") as [-> | Ha]; simpl.
      * exists (S n). rewrite IH. reflexivity.
      * exists n. rewrite IH. reflexivity.
    + exists n. change (String a s = String a (String c r +:+ slashes n)).
      congruence.
Qed.

Lemma rstrip_fixed (s : string) : (forall t, s <> t +:+ "/") -> rstrip "/" s = s.
Proof.
  intros H. destruct (rstrip_decompose s) as [[| n] Hn].
  - cbn [slashes] in Hn. rewrite append_nil_r in Hn. symmetry. exact Hn.
  - rewrite slashes_snoc, <- append_assoc in Hn. destruct (H _ Hn).
Qed.

(** The constructor takes nothing but trailing slashes off the base URL:
    the argument is the stored base followed by slashes only; a base URL
    that does not end with a slash is stored as it is; a client built
    again from its own stored base is the same client; and a base URL
    made of slashes only is stored as the empty string. *)
Theorem constructor_removes_trailing_slashes_only (base email api_key : string) :
  (exists n, base = base_url (TestRail.__init__ base email api_key) +:+ slashes n) /\
  ((forall t, base <> t +:+ "/") ->
   base_url (TestRail.__init__ base email api_key) = base) /\
  TestRail.__init__ (base_url (TestRail.__init__ base email api_key)) email api_key
  = TestRail.__init__ base email api_key /\
  (forall n, base_url (TestRail.__init__ (slashes n) email api_key) = "").
Proof.
  unfold TestRail.__init__. cbn [base_url]. split; [| split; [| split]].
  - apply rstrip_decompose.
  - apply rstrip_fixed.
  - rewrite (rstrip_fixed (rstrip "/" base)); [reflexivity |].
    apply rstrip_no_trailing_slash.
  - apply rstrip_only_slashes.
Qed.

Lemma constructor_removes_trailing_slashes_only_witness :
  base_url (TestRail.__init__ "https://example.testrail.io/index.php" "e" "k")
  = "https://example.testrail.io/index.php".
Proof.
  apply (constructor_removes_trailing_slashes_only
           "https://example.testrail.io/index.php" "e" "k").
  intros t H.
  repeat (destruct t as [| ? t]; simpl in H; [discriminate H | injection H as _ H]).
  destruct t; discriminate H.
Defined.

(** ** Requests determine their arguments *)

(** [str(n)] tells integers apart. *)
Lemma str_int_inj (z1 z2 : Z) : str_int z1 = str_int z2 -> z1 = z2.
Proof.
  unfold str_int. intros H. apply DecimalZ.to_int_inj.
  assert (Hparse : forall z,
             NilZero.int_of_string (NilZero.string_of_int (Z.to_int z)) = Some (Z.to_int z)).
  { intros z. apply NilZero.isi; destruct z; simpl; try discriminate;
      intros [= E]; exact (DecimalPos.Unsigned.to_uint_nonnil _ E). }
  pose proof (Hparse z1) as H1. rewrite H, Hparse in H1. congruence.
Qed.

(** The URL lists of the four REST methods. *)
Lemma rest_urls requests (w : world TestRailClient Request) :
  (forall test_id status_id comment elapsed,
      req_url <$> sent (snd (add_result requests test_id status_id comment elapsed w))
      = (req_url <$> sent w) ++
        [base_url (self w) +:+ "/index.php?/api/v2/add_result/" +:+ str_int test_id]) /\
  (forall run_id results,
      req_url <$> sent (snd (add_results_batch requests run_id results w))
      = (req_url <$> sent w) ++
        [base_url (self w) +:+ "/index.php?/api/v2/add_results/" +:+ str_int run_id]) /\
  (forall test_id,
      req_url <$> sent (snd (get_test requests test_id w))
      = (req_url <$> sent w) ++
        [base_url (self w) +:+ "/index.php?/api/v2/get_test/" +:+ str_int test_id]) /\
  (forall run_id,
      req_url <$> sent (snd (get_run requests run_id w))
      = (req_url <$> sent w) ++
        [base_url (self w) +:+ "/index.php?/api/v2/get_run/" +:+ str_int run_id]).
Proof.
  repeat split; intros.
  - rewrite add_result_run, rest_tail_run. cbn [snd sent]. rewrite fmap_app. reflexivity.
  - rewrite add_results_batch_run, rest_tail_run. cbn [snd sent]. rewrite fmap_app. reflexivity.
  - rewrite get_test_run, rest_tail_run. cbn [snd sent]. rewrite fmap_app. reflexivity.
  - rewrite get_run_run, rest_tail_run. cbn [snd sent]. rewrite fmap_app. reflexivity.
Qed.

Ltac same_base H :=
  apply app_inv_head in H; injection H as H; apply (inj (String.append _)) in H.

(** On one client, the URL a REST method requests tells which method it
    was and for which id: the same method with two ids never requests the
    same URL, and neither do two different methods, whatever their ids. *)
Theorem rest_url_identifies_method_and_id requests
    (w : world TestRailClient Request) :
  let urls (run : result pyval * world TestRailClient Request) :=
    req_url <$> sent (snd run) in
  (forall id id' s c e s' c' e',
      urls (add_result requests id s c e w) = urls (add_result requests id' s' c' e' w) ->
      id = id') /\
  (forall id id' rs rs',
      urls (add_results_batch requests id rs w) = urls (add_results_batch requests id' rs' w) ->
      id = id') /\
  (forall id id', urls (get_test requests id w) = urls (get_test requests id' w) -> id = id') /\
  (forall id id', urls (get_run requests id w) = urls (get_run requests id' w) -> id = id') /\
  (forall id id' s c e rs,
      urls (add_result requests id s c e w) <> urls (add_results_batch requests id' rs w)) /\
  (forall id id' s c e,
      urls (add_result requests id s c e w) <> urls (get_test requests id' w)) /\
  (forall id id' s c e,
      urls (add_result requests id s c e w) <> urls (get_run requests id' w)) /\
  (forall id id' rs,
      urls (add_results_batch requests id rs w) <> urls (get_test requests id' w)) /\
  (forall id id' rs,
      urls (add_results_batch requests id rs w) <> urls (get_run requests id' w)) /\
  (forall id id', urls (get_test requests id w) <> urls (get_run requests id' w)).
Proof.
  intros urls. subst urls.
  destruct (rest_urls requests w) as [Hadd [Hbatch [Htest Hrun]]].
  repeat split; intros.
  - rewrite !Hadd in H. same_base H. apply (inj (String.append _)) in H.
    exact (str_int_inj _ _ H).
  - rewrite !Hbatch in H. same_base H. apply (inj (String.append _)) in H.
    exact (str_int_inj _ _ H).
  - rewrite !Htest in H. same_base H. apply (inj (String.append _)) in H.
    exact (str_int_inj _ _ H).
  - rewrite !Hrun in H. same_base H. apply (inj (String.append _)) in H.
    exact (str_int_inj _ _ H).
  - rewrite Hadd, Hbatch. intros H. same_base H. discriminate H.
  - rewrite Hadd, Htest. intros H. same_base H. discriminate H.
  - rewrite Hadd, Hrun. intros H. same_base H. discriminate H.
  - rewrite Hbatch, Htest. intros H. same_base H. discriminate H.
  - rewrite Hbatch, Hrun. intros H. same_base H. discriminate H.
  - rewrite Htest, Hrun. intros H. same_base H. discriminate H.
Qed.

Lemma rest_url_identifies_method_and_id_witness :
  let w := {| self := example_rail; sent := [] |} in
  req_url <$> sent (snd (get_test accepting_server 7 w))
  = ["https://example.testrail.io/index.php?/api/v2/get_test/7"] /\
  req_url <$> sent (snd (get_test accepting_server 7 w))
  <> req_url <$> sent (snd (get_run accepting_server 7 w)) /\
  7 = 7.
Proof.
  intros w. split; [reflexivity |].
  destruct (rest_url_identifies_method_and_id accepting_server w)
    as [_ [_ [Hsame [_ [_ [_ [_ [_ [_ Hother]]]]]]]]].
  split; [exact (Hother 7 7) | exact (Hsame 7 7 eq_refl)].
Defined.

(** Equal singleton logs hold equal dictionaries. *)
Lemma dict_inj (m m' : gmap string pyval) : VDict m = VDict m' -> m = m'.
Proof.
  intros H.
  exact (f_equal (fun v => match v with VDict d => d | _ => m end) H).
Qed.

Lemma rest_body_inj (rq rq' : Request) (m m' : gmap string pyval) :
  [rq] = [rq'] -> req_json rq = Some (VDict m) -> req_json rq' = Some (VDict m') -> m = m'.
Proof.
  intros H E E'. assert (Hrq : rq = rq') by congruence. subst rq'.
  rewrite E in E'. apply dict_inj. congruence.
Qed.

Lemma rpc_data_inj (c c' : RpcCall) (m m' : gmap string pyval) :
  [c] = [c'] -> rpc_params c = [VDict m] -> rpc_params c' = [VDict m'] -> m = m'.
Proof.
  intros H E E'. assert (Hc : c = c') by congruence. subst c'.
  rewrite E in E'. apply dict_inj. congruence.
Qed.

(** Two calls of [add_result] that put the same request on the wire were
    given the same test id, status id, comment and elapsed time: the
    request loses nothing of the arguments. *)
Theorem add_result_request_determines_arguments requests requests'
    (test_id status_id test_id' status_id' : Z) (comment elapsed comment' elapsed' : string)
    (w : world TestRailClient Request) :
  sent (snd (add_result requests test_id status_id comment elapsed w))
  = sent (snd (add_result requests' test_id' status_id' comment' elapsed' w)) ->
  test_id = test_id' /\ status_id = status_id' /\ comment = comment' /\ elapsed = elapsed'.
Proof.
  rewrite !add_result_run, !rest_tail_run. cbn [snd sent]. intros H.
  apply app_inv_head in H.
  pose proof (rest_body_inj _ _ _ _ H eq_refl eq_refl) as Hbody.
  pose proof (f_equal (fmap req_url) H) as Hurl. cbn in Hurl. injection Hurl as Hurl.
  apply (inj (String.append _)) in Hurl. apply (inj (String.append _)) in Hurl.
  split; [exact (str_int_inj _ _ Hurl) |].
  pose proof (f_equal (fun m : gmap string pyval => m !! "status_id") Hbody) as Hs.
  pose proof (f_equal (fun m : gmap string pyval => m !! "comment") Hbody) as Hc.
  pose proof (f_equal (fun m : gmap string pyval => m !! "elapsed") Hbody) as He.
  cbv beta in Hs, Hc, He. simplify_map_eq. repeat split.
Qed.

Lemma add_result_request_determines_arguments_witness :
  let w := {| self := example_rail; sent := [] |} in
  sent (snd (add_result accepting_server 1 5 "timeout" "30s" w))
  = sent (snd (add_result rejecting_server 1 5 "timeout" "30s" w)) /\
  (1 = 1 /\ 5 = 5 /\ "timeout" = "timeout" /\ "30s" = "30s").
Proof.
  intros w. split; [reflexivity |].
  apply (add_result_request_determines_arguments accepting_server rejecting_server
           1 5 1 5 "timeout" "30s" "timeout" "30s" w).
  reflexivity.
Defined.

(** Two calls of [report_result] that put the same remote call on the
    wire were given the same test case, plan, build, status and notes. *)
Theorem report_result_call_determines_arguments xmlrpc xmlrpc'
    (testcase_id testplan_id build_id status notes : pyval)
    (testcase_id' testplan_id' build_id' status' notes' : pyval)
    (w : world TestLinkAPIClient RpcCall) :
  sent (snd (report_result xmlrpc testcase_id testplan_id build_id status notes w))
  = sent (snd (report_result xmlrpc' testcase_id' testplan_id' build_id' status' notes' w)) ->
  testcase_id = testcase_id' /\ testplan_id = testplan_id' /\ build_id = build_id' /\
  status = status' /\ notes = notes'.
Proof.
  rewrite !report_result_run. cbn [snd sent]. intros H.
  apply app_inv_head in H.
  pose proof (rpc_data_inj _ _ _ _ H eq_refl eq_refl) as Hdata.
  pose proof (f_equal (fun m : gmap string pyval => m !! "testcaseid") Hdata) as H1.
  pose proof (f_equal (fun m : gmap string pyval => m !! "testplanid") Hdata) as H2.
  pose proof (f_equal (fun m : gmap string pyval => m !! "buildid") Hdata) as H3.
  pose proof (f_equal (fun m : gmap string pyval => m !! "status") Hdata) as H4.
  pose proof (f_equal (fun m : gmap string pyval => m !! "notes") Hdata) as H5.
  cbv beta in H1, H2, H3, H4, H5. simplify_map_eq. repeat split.
Qed.

Lemma report_result_call_determines_arguments_witness :
  let w := {| self := example_link; sent := [] |} in
  sent (snd (report_result counting_server (VInt 1) (VInt 10) (VInt 5) (VStr "f") (VStr "") w))
  = sent (snd (report_result faulting_server (VInt 1) (VInt 10) (VInt 5) (VStr "f")
                 (VStr "") w)) /\
  (VInt 1 = VInt 1 /\ VInt 10 = VInt 10 /\ VInt 5 = VInt 5 /\
   VStr "f" = VStr "f" /\ VStr "" = VStr "").
Proof.
  intros w. split; [reflexivity |].
  apply (report_result_call_determines_arguments counting_server faulting_server
           (VInt 1) (VInt 10) (VInt 5) (VStr "f") (VStr "")
           (VInt 1) (VInt 10) (VInt 5) (VStr "f") (VStr "") w).
  reflexivity.
Defined.

(** ** The text of a surfaced fault *)

Lemma digits_have_no_space (d : Decimal.uint) :
  in_chars " " (NilEmpty.string_of_uint d) = false.
Proof. induction d; simpl; auto. Qed.

Lemma str_int_has_no_space (z : Z) : in_chars " " (str_int z) = false.
Proof.
  unfold str_int, NilZero.string_of_int, NilZero.string_of_uint.
  destruct (Z.to_int z) as [d | d]; destruct d; simpl;
    auto using digits_have_no_space.
Qed.

(** Two texts that agree up to and after their first space. *)
Lemma split_at_first_space (s1 : string) :
  forall s2 r1 r2,
    in_chars " " s1 = false -> in_chars " " s2 = false ->
    s1 +:+ String " " r1 = s2 +:+ String " " r2 ->
    s1 = s2 /\ r1 = r2.
Proof.
  induction s1 as [| a s1 IH]; intros [| b s2] r1 r2 H1 H2 H.
  - injection H as H. split; [reflexivity | exact H].
  - injection H as Hb _. subst b. simpl in H2. discriminate H2.
  - injection H as Ha _. subst a. simpl in H1. discriminate H1.
  - injection H as Hab H. subst b.
    simpl in H1, H2. apply orb_false_elim in H1 as [_ H1]. apply orb_false_elim in H2 as [_ H2].
    destruct (IH s2 r1 r2 H1 H2 H) as [-> ->]. split; reflexivity.
Qed.

(** The exception a fault is turned into keeps the fault apart from every
    other fault: its text determines the code and the message. *)
Theorem fault_text_determines_the_fault (code1 code2 : Z) (msg1 msg2 : string) :
  surfaced (Fault code1 msg1) = surfaced (Fault code2 msg2) ->
  code1 = code2 /\ msg1 = msg2.
Proof.
  unfold surfaced, fault_message. intros H. injection H as H.
  apply (inj (String.append _)) in H.
  apply split_at_first_space in H; try apply str_int_has_no_space.
  destruct H as [Hcode Hmsg]. injection Hmsg as Hmsg.
  split; [exact (str_int_inj _ _ Hcode) | exact Hmsg].
Qed.

Lemma fault_text_determines_the_fault_witness :
  surfaced (Fault 7 "boom") = PyException "XML-RPC Fault: 7 - boom" /\
  7 = 7 /\ "boom" = "boom".
Proof.
  split; [reflexivity |].
  exact (fault_text_determines_the_fault 7 7 "boom" "boom" eq_refl).
Defined.
